(** * Moctale Quick Access: the background coordinator and the page agent

    A shallow embedding of [scripts/background.js] (cache manager, agent
    locator, request handlers, pending-search slot, context-menu trigger)
    and of the parts of [scripts/contentScript.js] the coordinator relies
    on (auth detection, search, result normalisation), followed by the
    properties established about them.

    Modelling conventions
    - A JavaScript string is a [string] of code units below 256.
    - A JavaScript number is an integer [Z]; fractions, NaN and the
      infinities are outside the model.
    - A JavaScript object is an association list in insertion order
      (integer-like keys are not moved to the front).
    - [Date.now()] and every browser API answer are inputs, gathered in an
      environment record; handlers thread the coordinator state and an
      event trace explicitly. *)

From Stdlib Require Import ZArith Ascii String List Bool Lia.
From stdpp Require Import base option list strings pretty gmap fin_maps.

Local Open Scope string_scope.
Local Open Scope Z_scope.

(* ====================================================================== *)
(** ** JavaScript strings *)
(* ====================================================================== *)

Module JsString.

(** WhiteSpace and LineTerminator code units below 256, the characters
    [String.prototype.trim] strips: TAB, LF, VT, FF, CR, SP, NBSP. *)
Definition is_whitespace (c : ascii) : bool :=
  let n := nat_of_ascii c in
  ((9 <=? n) && (n <=? 13) || (n =? 32) || (n =? 160))%nat.

Fixpoint trimStart (s : string) : string :=
  match s with
  | EmptyString => EmptyString
  | String c r => if is_whitespace c then trimStart r else s
  end.

Fixpoint trimEnd (s : string) : string :=
  match s with
  | EmptyString => EmptyString
  | String c r =>
      match trimEnd r with
      | EmptyString => if is_whitespace c then EmptyString else String c EmptyString
      | r' => String c r'
      end
  end.

Definition trim (s : string) : string := trimEnd (trimStart s).

(** [toLowerCase] on one code unit: A-Z and the Latin-1 capitals
    U+00C0..U+00DE other than the multiplication sign U+00D7. *)
Definition lower_char (c : ascii) : ascii :=
  let n := nat_of_ascii c in
  if ((65 <=? n) && (n <=? 90)
      || (192 <=? n) && (n <=? 222) && negb (n =? 215))%nat
  then ascii_of_nat (n + 32) else c.

Fixpoint toLowerCase (s : string) : string :=
  match s with
  | EmptyString => EmptyString
  | String c r => String (lower_char c) (toLowerCase r)
  end.

(** [s.startsWith(p)] *)
Fixpoint startsWith (p s : string) : bool :=
  match p, s with
  | EmptyString, _ => true
  | String a p', String b s' => if Ascii.eqb a b then startsWith p' s' else false
  | String _ _, EmptyString => false
  end.

(** [args.join(sep)] on an array of strings. *)
Fixpoint join (sep : string) (l : list string) : string :=
  match l with
  | [] => EmptyString
  | [x] => x
  | x :: rest => x ++ sep ++ join sep rest
  end.

(** [s.split(sep)] for a one-character separator. *)
Fixpoint split (sep : ascii) (s : string) : list string :=
  match s with
  | EmptyString => [EmptyString]
  | String c r =>
      if Ascii.eqb c sep then EmptyString :: split sep r
      else match split sep r with
           | [] => [String c EmptyString]
           | x :: xs => String c x :: xs
           end
  end.

Fixpoint all_whitespace (s : string) : bool :=
  match s with
  | EmptyString => true
  | String c r => is_whitespace c && all_whitespace r
  end.

End JsString.

(* ====================================================================== *)
(** ** JavaScript values *)
(* ====================================================================== *)

#[local] Unset Elimination Schemes.
Inductive JsVal : Type :=
| JUndefined
| JNull
| JBool (b : bool)
| JNum (n : Z)
| JStr (s : string)
| JArr (items : list JsVal)
| JObj (props : list (string * JsVal)).
#[local] Set Elimination Schemes.

Module Js.

(** ToBoolean *)
Definition truthy (v : JsVal) : bool :=
  match v with
  | JUndefined | JNull => false
  | JBool b => b
  | JNum n => negb (n =? 0)
  | JStr s => match s with EmptyString => false | _ => true end
  | JArr _ | JObj _ => true
  end.

(** [a || b] *)
Definition or (a b : JsVal) : JsVal := if truthy a then a else b.

(** ToString, as applied by template literals. *)
Fixpoint toString (v : JsVal) : string :=
  match v with
  | JUndefined => "undefined"
  | JNull => "null"
  | JBool true => "true"
  | JBool false => "false"
  | JNum n => pretty n
  | JStr s => s
  | JArr items =>
      JsString.join ","
        (map (fun x => match x with
                       | JUndefined | JNull => EmptyString
                       | _ => toString x
                       end) items)
  | JObj _ => "[object Object]"
  end.

(** How [Array.prototype.join] renders one element. *)
Definition joinItem (v : JsVal) : string :=
  match v with
  | JUndefined | JNull => EmptyString
  | _ => toString v
  end.

(** [args.join(sep)] *)
Definition join (sep : string) (args : list JsVal) : string :=
  JsString.join sep (map joinItem args).

Fixpoint assoc (k : string) (props : list (string * JsVal)) : option JsVal :=
  match props with
  | [] => None
  | (k', v) :: rest => if String.eqb k k' then Some v else assoc k rest
  end.

(** Writing property [k]: an existing key keeps its position. *)
Fixpoint assoc_set (k : string) (v : JsVal) (props : list (string * JsVal))
  : list (string * JsVal) :=
  match props with
  | [] => [(k, v)]
  | (k', v') :: rest =>
      if String.eqb k k' then (k, v) :: rest else (k', v') :: assoc_set k v rest
  end.

(** The own enumerable properties copied by object spread [{...v}]. *)
Definition indexed {A} (f : A -> JsVal) (l : list A) : list (string * JsVal) :=
  imap (fun i x => (pretty (Z.of_nat i), f x)) l.

Definition ownProps (v : JsVal) : list (string * JsVal) :=
  match v with
  | JObj props => props
  | JArr items => indexed id items
  | JStr s => indexed (fun c => JStr (String c EmptyString)) (list_ascii_of_string s)
  | _ => []
  end.

(** [{...a, ...b}] on property lists: [b]'s entries are written in order. *)
Definition spread (a b : list (string * JsVal)) : list (string * JsVal) :=
  fold_left (fun acc kv => assoc_set (fst kv) (snd kv) acc) b a.

(** Property read [v.k]. [None] is the TypeError raised on [undefined]
    and [null]; primitives and arrays have none of the names read here. *)
Definition prop (v : JsVal) (k : string) : option JsVal :=
  match v with
  | JUndefined | JNull => None
  | JObj props => Some (default JUndefined (assoc k props))
  | _ => Some JUndefined
  end.

(** Optional chaining [v?.k]. *)
Definition propOpt (v : JsVal) (k : string) : JsVal :=
  default JUndefined (prop v k).

(** [v === 'name'] *)
Definition is_text (v : JsVal) (name : string) : bool :=
  match v with
  | JStr s => String.eqb s name
  | _ => false
  end.

End Js.

(* ====================================================================== *)
(** ** Constants of the coordinator *)
(* ====================================================================== *)

Definition MOCTALE_ORIGINS : list string :=
  ["https://www.moctale.in"; "https://moctale.in"].

(** What [CACHE_TTL[type]] evaluates to. [CACHE_TTL] is an object literal,
    so a name it does not define itself is looked up on [Object.prototype]. *)
Inductive TtlSlot : Type :=
| TtlNumber (ms : Z)
| TtlInherited
| TtlMissing.

Definition Object_prototype_names : list string :=
  ["constructor"; "__defineGetter__"; "__defineSetter__"; "hasOwnProperty";
   "__lookupGetter__"; "__lookupSetter__"; "isPrototypeOf";
   "propertyIsEnumerable"; "toString"; "valueOf"; "__proto__";
   "toLocaleString"].

Definition CACHE_TTL (type : string) : TtlSlot :=
  if String.eqb type "searchResults" then TtlNumber (5 * 60 * 1000)
  else if String.eqb type "movieDetails" then TtlNumber (15 * 60 * 1000)
  else if String.eqb type "sessionState" then TtlNumber (60 * 1000)
  else if existsb (String.eqb type) Object_prototype_names then TtlInherited
  else TtlMissing.

(** [Date.now() + ttl]: a number, or, when [ttl] is an inherited function
    or object, the concatenation of the two as text. *)
Inductive Expiry : Type :=
| ExpNumber (t : Z)
| ExpText.

Record CacheEntry : Type := mkEntry { data : JsVal; expiresAt : Expiry }.

(* ====================================================================== *)
(** ** In-memory cache *)
(* ====================================================================== *)

Module CacheManager.

Definition generateKey (type : string) (args : list JsVal) : string :=
  type ++ ":" ++ Js.join ":" args.

(** [CACHE_TTL[type] || CACHE_TTL.searchResults] *)
Definition ttl (type : string) : TtlSlot :=
  match CACHE_TTL type with
  | TtlNumber ms => if ms =? 0 then CACHE_TTL "searchResults" else TtlNumber ms
  | TtlInherited => TtlInherited
  | TtlMissing => CACHE_TTL "searchResults"
  end.

Definition expiry (now : Z) (type : string) : Expiry :=
  match ttl type with
  | TtlNumber ms => ExpNumber (now + ms)
  | _ => ExpText
  end.

(** [Date.now() > entry.expiresAt]; text that is no numeral converts to
    NaN and every comparison with NaN is false. *)
Definition expired (now : Z) (e : CacheEntry) : bool :=
  match expiresAt e with
  | ExpNumber t => t <? now
  | ExpText => false
  end.

Definition get (now : Z) (type : string) (args : list JsVal)
    (cache : gmap string CacheEntry) : JsVal * gmap string CacheEntry :=
  let key := generateKey type args in
  match cache !! key with
  | None => (JNull, cache)
  | Some entry =>
      if expired now entry then (JNull, delete key cache)
      else (data entry, cache)
  end.

Definition set (now : Z) (type : string) (value : JsVal) (args : list JsVal)
    (cache : gmap string CacheEntry) : gmap string CacheEntry :=
  let key := generateKey type args in
  <[key := mkEntry value (expiry now type)]> cache.

Definition clear (cache : gmap string CacheEntry) : gmap string CacheEntry := ∅.

Definition clearType (type : string) (cache : gmap string CacheEntry)
  : gmap string CacheEntry :=
  filter (fun kv => JsString.startsWith (type ++ ":") (fst kv) = false) cache.

End CacheManager.


(* ====================================================================== *)
(** ** Coordinator state, environment and the handler monad *)
(* ====================================================================== *)

Record Tab : Type := mkTab { tab_id : Z; tab_url : option string; tab_windowId : Z }.

(** The record kept under the [pendingSearch] key of [chrome.storage.local]. *)
Record PendingSearch : Type := mkPending { query : string; timestamp : Z }.

(** Calls that leave the handler: browser APIs and cache mutations. *)
Inductive Event : Type :=
| TabsQuery
| TabsSendMessage (tabId : Z) (message : JsVal)
| ExecuteScript (tabId : Z)
| SetTimeout (ms : Z)
| TabsCreate (url : string)
| TabsUpdate (tabId : Z)
| WindowsUpdate (windowId : Z)
| WindowsCreate (path : string)
| StorageGet
| StorageSet (record : PendingSearch)
| StorageRemove
| CacheSet (key : string)
| CacheDelete (key : string).

(** What the browser answers. [None] from [sendMessage] is a rejected
    promise; [elapsed] is how far [Date.now()] has moved when an awaited
    call resumes. *)
Record Env : Type := mkEnv {
  tabs : list Tab;
  sendMessage : Z -> JsVal -> option JsVal;
  executeScript : Z -> bool;
  elapsed : Event -> Z
}.

Record World : Type := mkWorld {
  now : Z;
  cache : gmap string CacheEntry;
  pendingSearch : option PendingSearch;
  trace : list Event
}.

Inductive Completion (A : Type) : Type :=
| Normal (a : A)
| Throw (message : string).
Arguments Normal {A} a.
Arguments Throw {A} message.

Definition M (A : Type) : Type := World -> Completion A * World.

Definition ret {A} (a : A) : M A := fun w => (Normal a, w).

Definition throw {A} (message : string) : M A := fun w => (Throw message, w).

Definition bind {A B} (m : M A) (k : A -> M B) : M B :=
  fun w => match m w with
           | (Normal a, w') => k a w'
           | (Throw e, w') => (Throw e, w')
           end.

Notation "'let!' x ':=' m 'in' k" := (bind m (fun x => k))
  (at level 10, x name, m at level 100, k at level 200).

Definition emit (ev : Event) : M unit :=
  fun w => (Normal tt, mkWorld (now w) (cache w) (pendingSearch w) (trace w ++ [ev])).

(** [Date.now()] *)
Definition Date_now : M Z := fun w => (Normal (now w), w).

(** V8's wording for a property read on [undefined] or [null]. *)
Definition cannot_read (v : JsVal) (k : string) : string :=
  "Cannot read properties of " ++ Js.toString v ++ " (reading '" ++ k ++ "')".

(** [v.k] inside a handler. *)
Definition read (v : JsVal) (k : string) : M JsVal :=
  match Js.prop v k with
  | Some x => ret x
  | None => throw (cannot_read v k)
  end.

(** The module-level [cacheManager] instance. *)
Definition cacheManager_get (type : string) (args : list JsVal) : M JsVal :=
  fun w =>
    let key := CacheManager.generateKey type args in
    let '(value, cache') := CacheManager.get (now w) type args (cache w) in
    let purged := match cache w !! key with
                  | Some entry => CacheManager.expired (now w) entry
                  | None => false
                  end in
    (Normal value,
     mkWorld (now w) cache' (pendingSearch w)
             (trace w ++ (if purged then [CacheDelete key] else []))).

Definition cacheManager_set (type : string) (value : JsVal) (args : list JsVal)
  : M unit :=
  fun w =>
    (Normal tt,
     mkWorld (now w) (CacheManager.set (now w) type value args (cache w))
             (pendingSearch w)
             (trace w ++ [CacheSet (CacheManager.generateKey type args)])).

Definition cacheManager_clear : M unit :=
  fun w => (Normal tt,
            mkWorld (now w) (CacheManager.clear (cache w)) (pendingSearch w) (trace w)).

Definition envelope_failure (error message : string) : JsVal :=
  JObj [("success", JBool false); ("error", JStr error); ("message", JStr message)].

Section Coordinator.

Variable env : Env.

(** An awaited browser call: it is recorded and the clock moves on. *)
Definition await (ev : Event) : M unit :=
  fun w => (Normal tt,
            mkWorld (now w + elapsed env ev) (cache w) (pendingSearch w)
                    (trace w ++ [ev])).

(* -------------------------------------------------------------------- *)
(** *** Tab management *)

Definition is_moctale_tab (tab : Tab) : bool :=
  match tab_url tab with
  | Some url =>
      match url with
      | EmptyString => false
      | _ => existsb (fun origin => JsString.startsWith origin url) MOCTALE_ORIGINS
      end
  | None => false
  end.

Definition findMoctaleTab : M (option Tab) :=
  let! _ := await TabsQuery in
  ret (find is_moctale_tab (tabs env)).

Definition ensureContentScriptInjected (tabId : Z) : M bool :=
  let ping := JObj [("type", JStr "PING")] in
  let! _ := await (TabsSendMessage tabId ping) in
  match sendMessage env tabId ping with
  | Some response =>
      ret (match Js.propOpt response "pong" with
           | JBool true => true
           | _ => false
           end)
  | None =>
      let! _ := await (ExecuteScript tabId) in
      if executeScript env tabId then
        let! _ := await (SetTimeout 100) in
        ret true
      else ret false
  end.

Definition sendToContentScript (message : JsVal) : M JsVal :=
  let! moctaleTab := findMoctaleTab in
  match moctaleTab with
  | None =>
      ret (envelope_failure "NO_MOCTALE_TAB"
             "Please open moctale.in in a browser tab first")
  | Some tab =>
      let! injected := ensureContentScriptInjected (tab_id tab) in
      if negb injected then
        ret (envelope_failure "INJECTION_FAILED" "Failed to connect to Moctale tab")
      else
        let! _ := await (TabsSendMessage (tab_id tab) message) in
        match sendMessage env (tab_id tab) message with
        | Some response => ret response
        | None =>
            ret (envelope_failure "COMMUNICATION_ERROR"
                   "Failed to communicate with Moctale tab")
        end
  end.

(* -------------------------------------------------------------------- *)
(** *** Message handlers *)

Definition is_null (v : JsVal) : bool :=
  match v with JNull => true | _ => false end.

(** [{ ...value, cached: true }] *)
Definition with_cached (value : JsVal) : JsVal :=
  JObj (Js.assoc_set "cached" (JBool true) (Js.ownProps value)).

Definition handleCheckSession : M JsVal :=
  let! cachedSession := cacheManager_get "sessionState" [JStr "status"] in
  if negb (is_null cachedSession) then ret cachedSession
  else
    let! response := sendToContentScript (JObj [("type", JStr "CHECK_AUTH")]) in
    let! success := read response "success" in
    let! _ := (if Js.truthy success
               then cacheManager_set "sessionState" response [JStr "status"]
               else ret tt) in
    ret response.

Definition invalid_query : JsVal :=
  envelope_failure "INVALID_QUERY" "Please enter a search term".

Definition normalizedQuery (q : string) : string :=
  JsString.toLowerCase (JsString.trim q).

(** The body of [handleSearchMovies] once the query has passed validation. *)
Definition searchMovies (q : string) : M JsVal :=
  let normalized := JStr (normalizedQuery q) in
  let! cachedResults := cacheManager_get "searchResults" [normalized] in
  if negb (is_null cachedResults) then ret (with_cached cachedResults)
  else
    let! response :=
      sendToContentScript (JObj [("type", JStr "SEARCH"); ("query", normalized)]) in
    let! success := read response "success" in
    let! _ := (if Js.truthy success
               then cacheManager_set "searchResults" response [normalized]
               else ret tt) in
    ret response.

Definition handleSearchMovies (query : JsVal) : M JsVal :=
  if negb (Js.truthy query) then ret invalid_query
  else match query with
       | JStr q =>
           match JsString.trim q with
           | EmptyString => ret invalid_query
           | _ => searchMovies q
           end
       | _ => throw "query.trim is not a function"
       end.

Definition handleGetMovieDetails (movieId : JsVal) : M JsVal :=
  if negb (Js.truthy movieId) then
    ret (envelope_failure "INVALID_ID" "Movie ID is required")
  else
    let! cachedDetails := cacheManager_get "movieDetails" [movieId] in
    if negb (is_null cachedDetails) then ret (with_cached cachedDetails)
    else
      let! response :=
        sendToContentScript (JObj [("type", JStr "GET_DETAILS"); ("movieId", movieId)]) in
      let! success := read response "success" in
      let! _ := (if Js.truthy success
                 then cacheManager_set "movieDetails" response [movieId]
                 else ret tt) in
      ret response.

Definition envelope_success : JsVal := JObj [("success", JBool true)].

Definition handleOpenLogin : M JsVal :=
  let! _ := await (TabsCreate "https://www.moctale.in/login") in
  ret envelope_success.

Definition handleOpenMoctale : M JsVal :=
  let! existingTab := findMoctaleTab in
  let! _ := match existingTab with
            | Some tab =>
                let! _ := await (TabsUpdate (tab_id tab)) in
                await (WindowsUpdate (tab_windowId tab))
            | None => await (TabsCreate "https://www.moctale.in/")
            end in
  ret envelope_success.

Definition five_minutes : Z := 5 * 60 * 1000.

(** [chrome.storage.local] restricted to its one key, [pendingSearch]. *)
Definition storage_get : M (option PendingSearch) :=
  fun w => (Normal (pendingSearch w),
            mkWorld (now w + elapsed env StorageGet) (cache w) (pendingSearch w)
                    (trace w ++ [StorageGet])).

Definition storage_set (record : PendingSearch) : M unit :=
  fun w => (Normal tt,
            mkWorld (now w + elapsed env (StorageSet record)) (cache w) (Some record)
                    (trace w ++ [StorageSet record])).

Definition storage_remove : M unit :=
  fun w => (Normal tt,
            mkWorld (now w + elapsed env StorageRemove) (cache w) None
                    (trace w ++ [StorageRemove])).

Definition handleGetPendingSearch : M JsVal :=
  let! pending := storage_get in
  match pending with
  | Some pending =>
      let! t := Date_now in
      let age := t - timestamp pending in
      if age <? five_minutes
      then ret (JObj [("success", JBool true); ("query", JStr (query pending))])
      else ret (JObj [("success", JBool false)])
  | None => ret (JObj [("success", JBool false)])
  end.

Definition handleClearPendingSearch : M JsVal :=
  let! _ := storage_remove in
  ret envelope_success.

(* -------------------------------------------------------------------- *)
(** *** Message listener *)

(** The value the listener hands to [sendResponse]. Destructuring the
    message comes before the [try]: on [undefined] or [null] it throws,
    no handler runs and [sendResponse] is never called, which is [None]. *)
Definition onMessage (message : JsVal) : World -> option JsVal * World :=
  fun w =>
    match message with
    | JUndefined | JNull => (None, w)
    | _ =>
        let type := Js.propOpt message "type" in
        let run :=
          if Js.is_text type "CHECK_SESSION" then handleCheckSession
          else if Js.is_text type "SEARCH_MOVIES"
          then handleSearchMovies (Js.propOpt message "query")
          else if Js.is_text type "GET_MOVIE_DETAILS"
          then handleGetMovieDetails (Js.propOpt message "movieId")
          else if Js.is_text type "OPEN_LOGIN" then handleOpenLogin
          else if Js.is_text type "OPEN_MOCTALE" then handleOpenMoctale
          else if Js.is_text type "GET_PENDING_SEARCH" then handleGetPendingSearch
          else if Js.is_text type "CLEAR_PENDING_SEARCH" then handleClearPendingSearch
          else ret (envelope_failure "UNKNOWN_MESSAGE_TYPE"
                      ("Unknown message type: " ++ Js.toString type)) in
        match run w with
        | (Normal response, w') => (Some response, w')
        | (Throw message, w') =>
            (Some (envelope_failure "INTERNAL_ERROR"
                     (match message with
                      | EmptyString => "An unexpected error occurred"
                      | _ => message
                      end)), w')
        end
    end.

(* -------------------------------------------------------------------- *)
(** *** Context menu *)

Definition CONTEXT_MENU_ID : string := "moctale-search-selection".

(** The [contextMenus.onClicked] listener; [selectionText] is [None]
    when the click carries no selection. The popup window is created on
    [chrome.runtime.getURL] of the recorded path and is not awaited. *)
Definition onClicked (menuItemId : string) (selectionText : option string) : M unit :=
  match selectionText with
  | Some text =>
      if String.eqb menuItemId CONTEXT_MENU_ID
         && Js.truthy (JStr text)
      then
        let selectedText := JsString.trim text in
        if Js.truthy (JStr selectedText) then
          let! t := Date_now in
          let! _ := storage_set (mkPending selectedText t) in
          emit (WindowsCreate "popup/popup.html")
        else ret tt
      else ret tt
  | None => ret tt
  end.

End Coordinator.

(* ====================================================================== *)
(** ** The page agent (content script) *)
(* ====================================================================== *)

(** The attributes of a DOM element the auth probe reads. [alt] exists on
    images only; [href] is [getAttribute('href')]. *)
Record Element : Type := mkElement {
  alt : option string;
  title : string;
  href : option string
}.

(** The outcome of [fetch]: a network failure with its message, or a
    response with its status and the outcome of [response.json()]. *)
Inductive FetchResult : Type :=
| FetchFailed (message : string)
| FetchResponse (status : Z) (json : Completion JsVal).

(** What the agent observes of the page it runs in. [querySelector] is
    indexed by the key of the selector in [CONFIG.authSelectors]. *)
Record Page : Type := mkPage {
  cookie : string;
  querySelector : string -> option Element;
  pathname : string;
  fetch : string -> FetchResult
}.

Module Agent.

Definition authCookie : string := "auth_token".

(** The keys of [CONFIG.authSelectors], in declaration order. *)
Definition authSelectors : list string :=
  ["userAvatar"; "userMenu"; "logoutButton"; "profileLink"].

Definition api_search : string := "/api/search".
Definition api_content : string := "/api/content".

Definition ok (status : Z) : bool := (200 <=? status) && (status <=? 299).

Definition str_or_null (o : option string) : JsVal :=
  match o with Some s => JStr s | None => JNull end.

(* -------------------------------------------------------------------- *)
(** *** Authentication detection *)

Definition cookie_is_auth (c : string) : bool :=
  match JsString.split "=" (JsString.trim c) with
  | name :: value :: _ => String.eqb name authCookie && Js.truthy (JStr value)
  | _ => false
  end.

Definition checkAuthFromCookie (page : Page) : option (list (string * JsVal)) :=
  if existsb cookie_is_auth (JsString.split ";" (cookie page)) then
    Some [("isLoggedIn", JBool true); ("username", JNull);
          ("method", JStr "cookie"); ("indicator", JStr "auth_token")]
  else None.

(** [s.match(/[^\/]+/)] anchored at the start of [s]. *)
Fixpoint segment (s : string) : string :=
  match s with
  | EmptyString => EmptyString
  | String c r => if Ascii.eqb c "/" then EmptyString else String c (segment r)
  end.

(** Capture group 1 of the leftmost match of [/\/u\/([^\/]+)/]. *)
Fixpoint match_profile (s : string) : option string :=
  match s with
  | EmptyString => None
  | String a r =>
      match r with
      | String b (String c rest) =>
          if Ascii.eqb a "/" && Ascii.eqb b "u" && Ascii.eqb c "/" then
            match segment rest with
            | EmptyString => match_profile r
            | name => Some name
            end
          else match_profile r
      | _ => match_profile r
      end
  end.

Definition dom_username (key : string) (element : Element) : JsVal :=
  if String.eqb key "userAvatar" then
    Js.or (match alt element with Some a => JStr a | None => JUndefined end)
          (Js.or (JStr (title element)) JNull)
  else if String.eqb key "profileLink" then
    match href element with
    | Some h => if Js.truthy (JStr h) then str_or_null (match_profile h) else JNull
    | None => JNull
    end
  else JNull.

Fixpoint first_indicator (page : Page) (selectors : list string)
  : option (list (string * JsVal)) :=
  match selectors with
  | [] => None
  | key :: rest =>
      match querySelector page key with
      | Some element =>
          Some [("isLoggedIn", JBool true); ("username", dom_username key element);
                ("method", JStr "dom"); ("indicator", JStr key)]
      | None => first_indicator page rest
      end
  end.

Definition checkAuthFromDOM (page : Page) : option (list (string * JsVal)) :=
  match first_indicator page authSelectors with
  | Some result => Some result
  | None =>
      if String.eqb (pathname page) "/login" || String.eqb (pathname page) "/signup"
      then Some [("isLoggedIn", JBool false); ("username", JNull);
                 ("method", JStr "dom"); ("indicator", JStr "login_page")]
      else None
  end.

Definition checkAuthFromAPI (page : Page) : option (list (string * JsVal)) :=
  match fetch page "/api/me" with
  | FetchFailed _ => None
  | FetchResponse status json =>
      if ok status then
        match json with
        | Throw _ => None
        | Normal data =>
            match Js.prop data "username", Js.prop data "name", Js.prop data "user" with
            | Some username, Some name, Some user =>
                Some [("isLoggedIn", JBool true);
                      ("username",
                        Js.or username (Js.or name (Js.or (Js.propOpt user "username") JNull)));
                      ("method", JStr "api"); ("userData", data)]
            | _, _, _ => None
            end
        end
      else if (status =? 401) || (status =? 403) then
        Some [("isLoggedIn", JBool false); ("username", JNull);
              ("method", JStr "api"); ("indicator", JStr "unauthorized")]
      else None
  end.

Definition checkAuth (page : Page) : JsVal :=
  match checkAuthFromCookie page with
  | Some cookieResult => JObj (Js.spread [("success", JBool true)] cookieResult)
  | None =>
      match checkAuthFromDOM page with
      | Some domResult => JObj (Js.spread [("success", JBool true)] domResult)
      | None =>
          match checkAuthFromAPI page with
          | Some apiResult => JObj (Js.spread [("success", JBool true)] apiResult)
          | None =>
              JObj [("success", JBool true); ("isLoggedIn", JBool false);
                    ("username", JNull); ("method", JStr "cookie");
                    ("message", JStr "No auth_token cookie found. Please log in.")]
          end
      end
  end.

(* -------------------------------------------------------------------- *)
(** *** Search *)

Definition hex_digit (n : nat) : ascii :=
  ascii_of_nat (if (n <? 10)%nat then 48 + n else 55 + n).

Definition percent (byte : nat) : string :=
  String "%" (String (hex_digit (byte / 16)) (String (hex_digit (byte mod 16)) EmptyString)).

Definition unreserved (c : ascii) : bool :=
  let n := nat_of_ascii c in
  ((65 <=? n) && (n <=? 90) || (97 <=? n) && (n <=? 122) || (48 <=? n) && (n <=? 57)
   || existsb (Nat.eqb n) [45; 95; 46; 33; 126; 42; 39; 40; 41])%nat.

(** [encodeURIComponent]: other code units are written as the bytes of
    their UTF-8 encoding. *)
Fixpoint encodeURIComponent (s : string) : string :=
  match s with
  | EmptyString => EmptyString
  | String c r =>
      let n := nat_of_ascii c in
      (if unreserved c then String c EmptyString
       else if (n <? 128)%nat then percent n
       else percent (192 + n / 64) ++ percent (128 + n mod 64))
      ++ encodeURIComponent r
  end.

Definition normalizeMovieData (item : JsVal) : Completion JsVal :=
  match Js.prop item "slug" with
  | None => Throw (cannot_read item "slug")
  | Some slug =>
      let get := Js.propOpt item in
      Normal (JObj
        [("id", slug);
         ("title", get "name");
         ("year", get "year");
         ("rating", Js.or (get "rating") JNull);
         ("ratingCount", Js.or (get "ratingCount") (JNum 0));
         ("poster", get "image");
         ("banner", get "banner");
         ("summary", Js.or (get "summary") (Js.or (get "description") JNull));
         ("type", JStr (if Js.truthy (get "is_show") then "series" else "movie"));
         ("slug", slug);
         ("url", JStr ("/content/" ++ Js.toString slug))])
  end.

(** [items.map(f)] where [f] may throw. *)
Fixpoint map_items (f : JsVal -> Completion JsVal) (items : list JsVal)
  : Completion (list JsVal) :=
  match items with
  | [] => Normal []
  | x :: rest =>
      match f x with
      | Throw e => Throw e
      | Normal y =>
          match map_items f rest with
          | Throw e => Throw e
          | Normal ys => Normal (y :: ys)
          end
      end
  end.

Definition network_error (message : string) : JsVal :=
  envelope_failure "NETWORK_ERROR"
    (match message with EmptyString => "Network error occurred" | _ => message end).

Definition searchViaAPI (page : Page) (query : JsVal) (pageNo : JsVal) : JsVal :=
  let endpoint :=
    api_search ++ "?q=" ++ encodeURIComponent (Js.toString query)
               ++ "&page=" ++ Js.toString pageNo in
  match fetch page endpoint with
  | FetchFailed message => network_error message
  | FetchResponse status json =>
      if ok status then
        match json with
        | Throw message => network_error message
        | Normal data =>
            match Js.prop data "data" with
            | None => network_error (cannot_read data "data")
            | Some d =>
                match Js.or d (JArr []) with
                | JArr results =>
                    match map_items normalizeMovieData results with
                    | Throw message => network_error message
                    | Normal items =>
                        let get := Js.propOpt data in
                        JObj [("success", JBool true);
                              ("method", JStr "api");
                              ("endpoint", JStr endpoint);
                              ("results", JArr items);
                              ("pagination",
                                JObj [("totalPages", Js.or (get "total_pages") (JNum 1));
                                      ("currentPage", Js.or (get "current_page") (JNum 1));
                                      ("nextPage", get "next_page");
                                      ("previousPage", get "previous_page");
                                      ("count",
                                        Js.or (get "count")
                                              (JNum (Z.of_nat (length results))))])]
                    end
                | _ => network_error "results.map is not a function"
                end
            end
        end
      else if (status =? 401) || (status =? 403) then
        envelope_failure "UNAUTHORIZED" "Session expired. Please log in again."
      else
        envelope_failure "API_ERROR"
          ("Search failed with status " ++ Js.toString (JNum status))
  end.

Definition search (page : Page) (query pageNo : JsVal) : JsVal :=
  searchViaAPI page query pageNo.

(* -------------------------------------------------------------------- *)
(** *** Movie details *)

Definition cbind {A B} (m : Completion A) (k : A -> Completion B) : Completion B :=
  match m with
  | Normal a => k a
  | Throw e => Throw e
  end.

Definition field (v : JsVal) (k : string) : Completion JsVal :=
  match Js.prop v k with
  | Some x => Normal x
  | None => Throw (cannot_read v k)
  end.

(** [v?.[0]] *)
Definition first_item (v : JsVal) : JsVal :=
  match v with
  | JArr (x :: _) => x
  | JStr (String c _) => JStr (String c EmptyString)
  | JObj props => default JUndefined (Js.assoc "0" props)
  | _ => JUndefined
  end.

Definition normalizeReview (review : JsVal) : Completion JsVal :=
  cbind (field review "id") (fun id =>
    let get := Js.propOpt review in
    Normal (JObj
      [("id", Js.or id (get "_id"));
       ("author", Js.or (get "author") (Js.or (get "user")
                    (Js.or (get "username") (JStr "Anonymous"))));
       ("rating", Js.or (get "rating") (Js.or (get "score") JNull));
       ("text", Js.or (get "text") (Js.or (get "content") (Js.or (get "review")
                  (Js.or (get "body") (JStr EmptyString)))));
       ("date", Js.or (get "date") (Js.or (get "createdAt")
                  (Js.or (get "timestamp") JNull)));
       ("helpful", Js.or (get "helpful") (Js.or (get "likes") (JNum 0)))])).

Definition normalizeMovieDetails (data : JsVal) : Completion JsVal :=
  cbind (field data "movie") (fun m =>
    let movie := Js.or m (Js.or (Js.propOpt data "content")
                    (Js.or (Js.propOpt data "data") data)) in
    cbind (normalizeMovieData movie) (fun base =>
      let get := Js.propOpt movie in
      match Js.or (get "reviews") (Js.or (get "userReviews") (JArr [])) with
      | JArr reviews =>
          cbind (map_items normalizeReview reviews) (fun rs =>
            Normal (JObj (Js.spread (Js.ownProps base)
              [("genres", Js.or (get "genres") (Js.or (get "genre") (JArr [])));
               ("duration", Js.or (get "duration") (Js.or (get "runtime") JNull));
               ("director", Js.or (get "director")
                              (Js.or (first_item (get "directors")) JNull));
               ("cast", Js.or (get "cast") (Js.or (get "actors") (JArr [])));
               ("reviews", JArr rs);
               ("userRating", Js.or (get "userRating") (Js.or (get "myRating") JNull));
               ("trailer", Js.or (get "trailer") (Js.or (get "trailerUrl") JNull));
               ("streamingPlatforms",
                 Js.or (get "platforms") (Js.or (get "streaming")
                   (Js.or (get "watchOn") (JArr []))))])))
      | _ => Throw "(intermediate value).map is not a function"
      end)).

Definition fetch_failed : JsVal :=
  envelope_failure "FETCH_FAILED" "Failed to fetch movie details".

Definition getDetailsViaAPI (page : Page) (slug : JsVal) : JsVal :=
  let endpoint := api_content ++ "/" ++ encodeURIComponent (Js.toString slug) in
  match fetch page endpoint with
  | FetchFailed _ => fetch_failed
  | FetchResponse status json =>
      if ok status then
        match cbind json normalizeMovieDetails with
        | Normal details =>
            JObj [("success", JBool true); ("method", JStr "api"); ("data", details)]
        | Throw _ => fetch_failed
        end
      else if (status =? 401) || (status =? 403) then
        envelope_failure "UNAUTHORIZED" "Session expired. Please log in again."
      else if status =? 404 then envelope_failure "NOT_FOUND" "Movie not found"
      else fetch_failed
  end.

Definition getDetails (page : Page) (slug : JsVal) : JsVal :=
  if negb (Js.truthy slug) then envelope_failure "INVALID_SLUG" "Movie slug is required"
  else getDetailsViaAPI page slug.

(* -------------------------------------------------------------------- *)
(** *** The message listener *)

(** Messages cross contexts as JSON: a property holding [undefined] is
    dropped and [undefined] inside an array becomes [null]. *)
Fixpoint serialize (v : JsVal) : JsVal :=
  match v with
  | JArr items =>
      JArr (map (fun x => match x with
                          | JUndefined => JNull
                          | _ => serialize x
                          end) items)
  | JObj props =>
      JObj (omap (fun kv => match kv with
                            | (_, JUndefined) => None
                            | (k, x) => Some (k, serialize x)
                            end) props)
  | _ => v
  end.

(** The listener applied to the JSON copy of the [message] given to
    [chrome.tabs.sendMessage]; the result is the value handed to
    [sendResponse], as the coordinator receives it. The message is an
    object, as every message the coordinator sends is (on [undefined] or
    [null] the listener's destructuring would throw before any reply). *)
Definition onMessage (page : Page) (message : JsVal) : JsVal :=
  let get := Js.propOpt (serialize message) in
  let type := get "type" in
  if Js.is_text type "PING" then JObj [("pong", JBool true)]
  else if Js.is_text type "CHECK_AUTH" then serialize (checkAuth page)
  else if Js.is_text type "SEARCH"
  then serialize (search page (get "query") (Js.or (get "page") (JNum 1)))
  else if Js.is_text type "GET_DETAILS"
  then serialize (getDetails page (Js.or (get "slug") (get "movieId")))
  else envelope_failure "UNKNOWN_MESSAGE_TYPE"
         ("Unknown message type: " ++ Js.toString type).

End Agent.

(* ====================================================================== *)
(** ** Vocabulary of the statements *)
(* ====================================================================== *)

Fixpoint colon_free (s : string) : bool :=
  match s with
  | EmptyString => true
  | String c r => negb (Ascii.eqb c ":") && colon_free r
  end.

Definition is_cache_event (ev : Event) : bool :=
  match ev with
  | CacheSet _ | CacheDelete _ => true
  | _ => false
  end.

(** The events a run appended to the trace. *)
Definition new_events (w w' : World) : list Event :=
  drop (length (trace w)) (trace w').

(** The shape shared by the three agent-bound handlers; [annotate] is what
    a handler does to a cached value before returning it. *)
Definition pipeline (env : Env) (type : string) (args : list JsVal)
    (annotate : JsVal -> JsVal) (message : JsVal) : M JsVal :=
  let! cached := cacheManager_get type args in
  if negb (is_null cached) then ret (annotate cached)
  else
    let! response := sendToContentScript env message in
    let! success := read response "success" in
    let! _ := (if Js.truthy success
               then cacheManager_set type response args
               else ret tt) in
    ret response.

Definition checkAuthMessage : JsVal := JObj [("type", JStr "CHECK_AUTH")].

Definition searchMessage (q : string) : JsVal :=
  JObj [("type", JStr "SEARCH"); ("query", JStr (normalizedQuery q))].

Definition detailsMessage (movieId : JsVal) : JsVal :=
  JObj [("type", JStr "GET_DETAILS"); ("movieId", movieId)].

(** The agent-bound handler [op], whose cache slot is [(type, args)] and
    whose request to the agent is [message], writes the cache only after a
    reply with a truthy [success]: a [CacheSet] event, and an entry that
    was not there before the call, both imply such a reply and concern the
    handler's own key. When the lookup misses and the round trip ends in
    an envelope [resp] whose [success] is falsy, the handler returns
    [resp] itself, records no cache write, adds or alters no entry, and
    removes none but an expired entry under its own key. *)
Definition writes_cache_only_on_success (env : Env) (op : M JsVal)
    (type : string) (args : list JsVal) (message : JsVal) : Prop :=
  let key := CacheManager.generateKey type args in
  (forall (w w' : World) (result : Completion JsVal) (k : string),
      op w = (result, w') ->
      In (CacheSet k) (new_events w w') ->
      k = key
      /\ exists resp,
          result = Normal resp
          /\ fst (sendToContentScript env message (snd (cacheManager_get type args w)))
             = Normal resp
          /\ Js.truthy (Js.propOpt resp "success") = true)
  /\ (forall (w w' : World) (result : Completion JsVal) (k : string) (e : CacheEntry),
        op w = (result, w') ->
        cache w' !! k = Some e ->
        cache w !! k = Some e
        \/ (k = key
            /\ exists resp,
                result = Normal resp
                /\ data e = resp
                /\ Js.truthy (Js.propOpt resp "success") = true))
  /\ (forall (w w2 : World) (resp s : JsVal),
        fst (cacheManager_get type args w) = Normal JNull ->
        sendToContentScript env message (snd (cacheManager_get type args w))
        = (Normal resp, w2) ->
        Js.prop resp "success" = Some s ->
        Js.truthy s = false ->
        op w = (Normal resp, w2)
        /\ (forall k, ~ In (CacheSet k) (new_events w w2))
        /\ (forall k e, cache w2 !! k = Some e -> cache w !! k = Some e)
        /\ (forall k e, cache w !! k = Some e ->
              cache w2 !! k = Some e
              \/ (k = key /\ CacheManager.expired (now w) e = true))).

(** *** Concrete worlds used to exercise the statements *)

Definition moctale_tab : Tab := mkTab 7 (Some "https://www.moctale.in/explore") 1.

Definition no_tab_env : Env :=
  mkEnv [mkTab 3 (Some "https://example.org/") 1] (fun _ _ => None) (fun _ => false)
        (fun _ => 0).

Definition fresh_world (t : Z) : World := mkWorld t ∅ None [].

Definition alice_session : JsVal :=
  JObj [("success", JBool true); ("isLoggedIn", JBool true); ("username", JStr "alice")].

(** A tab on the site whose agent answers [PING] and reports alice. *)
Definition alice_env : Env :=
  mkEnv [moctale_tab]
        (fun _ message =>
           let type := Js.propOpt message "type" in
           if Js.is_text type "PING" then Some (JObj [("pong", JBool true)])
           else if Js.is_text type "CHECK_AUTH" then Some alice_session
           else None)
        (fun _ => true)
        (fun _ => 25).

(** The world left by a first session check in [fresh_world 1000]. *)
Definition alice_cached_world : World :=
  mkWorld 1075
    {[ "sessionState:status" := mkEntry alice_session (ExpNumber 61075) ]}
    None
    [TabsQuery;
     TabsSendMessage 7 (JObj [("type", JStr "PING")]);
     TabsSendMessage 7 checkAuthMessage;
     CacheSet "sessionState:status"].

(** The same world [dt] milliseconds later. *)
Definition later (dt : Z) (w : World) : World :=
  mkWorld (now w + dt) (cache w) (pendingSearch w) (trace w).

(** A world whose only cache entry, under the session key, lapsed at 5. *)
Definition stale_session_world : World :=
  mkWorld 10
    {[ "sessionState:status" := mkEntry alice_session (ExpNumber 5) ]}
    None [].

Definition dune_upstream : JsVal :=
  JObj [("data",
          JArr [JObj [("slug", JStr "dune-2021"); ("name", JStr "Dune");
                      ("year", JNum 2021); ("is_show", JBool false);
                      ("image", JStr "x.jpg")]]);
        ("total_pages", JNum 3);
        ("current_page", JNum 1)].

Definition dune_item : JsVal :=
  JObj [("id", JStr "dune-2021"); ("title", JStr "Dune"); ("year", JNum 2021);
        ("rating", JNull); ("ratingCount", JNum 0); ("poster", JStr "x.jpg");
        ("summary", JNull); ("type", JStr "movie"); ("slug", JStr "dune-2021");
        ("url", JStr "/content/dune-2021")].

Definition dune_envelope (endpoint : string) : JsVal :=
  JObj [("success", JBool true); ("method", JStr "api"); ("endpoint", JStr endpoint);
        ("results", JArr [dune_item]);
        ("pagination",
          JObj [("totalPages", JNum 3); ("currentPage", JNum 1); ("count", JNum 1)])].

(** The URL the agent fetches for query [q], page 1. *)
Definition search_endpoint (q : string) : string :=
  Agent.api_search ++ "?q=" ++ Agent.encodeURIComponent (Js.toString (JStr (normalizedQuery q)))
                   ++ "&page=" ++ Js.toString (JNum 1).

Definition ping : JsVal := JObj [("type", JStr "PING")].

(** The agent in [page] runs in [tab], the tab the locator finds. *)
Definition agent_runs_in (env : Env) (tab : Tab) (page : Page) : Prop :=
  find is_moctale_tab (tabs env) = Some tab
  /\ forall message, sendMessage env (tab_id tab) message = Some (Agent.onMessage page message).

(** A page with no auth indicator whose search endpoint answers
    [dune_upstream] for the query [dune], page 1. *)
Definition dune_page : Page :=
  mkPage EmptyString (fun _ => None) "/explore"
         (fun url => if String.eqb url "/api/search?q=dune&page=1"
                     then FetchResponse 200 (Normal dune_upstream)
                     else FetchFailed "Failed to fetch").

(** A tab on the site running the agent in [page]. *)
Definition agent_env (page : Page) : Env :=
  mkEnv [moctale_tab] (fun _ message => Some (Agent.onMessage page message))
        (fun _ => true) (fun _ => 25).

(** The world left by a first search for [Dune] in [fresh_world 1000]. *)
Definition dune_cached_world : World :=
  mkWorld 1075
    {[ "searchResults:dune"
       := mkEntry (dune_envelope "/api/search?q=dune&page=1") (ExpNumber 301075) ]}
    None
    [TabsQuery;
     TabsSendMessage 7 ping;
     TabsSendMessage 7 (searchMessage "Dune");
     CacheSet "searchResults:dune"].

Definition absent : JsVal := JObj [("success", JBool false)].

(** Successive reads of the pending-search slot, one per environment. *)
Fixpoint read_repeatedly (envs : list Env) (w : World)
  : list (Completion JsVal) * World :=
  match envs with
  | [] => ([], w)
  | env :: rest =>
      let '(r, w1) := handleGetPendingSearch env w in
      let '(rs, w2) := read_repeatedly rest w1 in
      (r :: rs, w2)
  end.

(** A world holding a pending search written at 1000. *)
Definition pending_world : World :=
  mkWorld 2000 ∅ (Some (mkPending "dune" 1000)) [].

(* ====================================================================== *)
(** ** Vocabulary of the further properties *)
(* ====================================================================== *)

(** Successive lookups of one slot, one per reading of the clock. *)
Fixpoint get_each (times : list Z) (type : string) (args : list JsVal)
    (cache : gmap string CacheEntry) : list JsVal * gmap string CacheEntry :=
  match times with
  | [] => ([], cache)
  | t :: rest =>
      let '(v, cache1) := CacheManager.get t type args cache in
      let '(vs, cache2) := get_each rest type args cache1 in
      (v :: vs, cache2)
  end.

(** The values of [MESSAGE_TYPES]. *)
Definition MESSAGE_TYPES : list string :=
  ["CHECK_SESSION"; "SEARCH_MOVIES"; "GET_MOVIE_DETAILS"; "OPEN_LOGIN";
   "OPEN_MOCTALE"; "GET_PENDING_SEARCH"; "CLEAR_PENDING_SEARCH"].

(** A tab that answers the probe with something other than a pong. *)
Definition mute_env : Env :=
  mkEnv [moctale_tab] (fun _ _ => Some (JObj [("ready", JBool true)])) (fun _ => true)
        (fun _ => 25).

(** A tab without the agent, into which it can be injected; afterwards
    the tab rejects the request. *)
Definition injectable_env : Env :=
  mkEnv [mkTab 3 (Some "https://example.org/") 1; moctale_tab] (fun _ _ => None)
        (fun _ => true) (fun _ => 25).

(** The message the popup's [sendMessage(type, data)] posts:
    [{ type, ...data }]. *)
Definition request (type : string) (data : list (string * JsVal)) : JsVal :=
  JObj (Js.spread [("type", JStr type)] data).

(** A tab whose agent settles every request without a reply. *)
Definition silent_env : Env :=
  mkEnv [moctale_tab]
        (fun _ message =>
           if Js.is_text (Js.propOpt message "type") "PING"
           then Some (JObj [("pong", JBool true)])
           else Some JUndefined)
        (fun _ => true) (fun _ => 25).

(** A cookie name or value: no whitespace, no [;], no [=]. *)
Fixpoint cookie_token (s : string) : bool :=
  match s with
  | EmptyString => true
  | String c r =>
      negb (JsString.is_whitespace c) && negb (Ascii.eqb c ";")
      && negb (Ascii.eqb c "=") && cookie_token r
  end.

Definition cookie_pair (p : string * string) : string :=
  fst p ++ String "=" (snd p).

(** [document.cookie] for the given name/value pairs. *)
Definition cookie_header (pairs : list (string * string)) : string :=
  JsString.join "; " (map cookie_pair pairs).

Fixpoint slash_free (s : string) : bool :=
  match s with
  | EmptyString => true
  | String c r => negb (Ascii.eqb c "/") && slash_free r
  end.

Definition nullish (v : JsVal) : bool :=
  match v with
  | JUndefined | JNull => true
  | _ => false
  end.

(** The URL [searchViaAPI] fetches. *)
Definition search_url (query pageNo : JsVal) : string :=
  Agent.api_search ++ "?q=" ++ Agent.encodeURIComponent (Js.toString query)
                   ++ "&page=" ++ Js.toString pageNo.

(** The URL [getDetailsViaAPI] fetches. *)
Definition content_url (slug : JsVal) : string :=
  Agent.api_content ++ "/" ++ Agent.encodeURIComponent (Js.toString slug).

(** A page carrying the auth cookie among others, on the login screen,
    whose profile endpoint would answer 401. *)
Definition cookie_page : Page :=
  mkPage (cookie_header [("theme", "dark"); ("auth_token", "abc123")])
         (fun _ => None) "/login"
         (fun _ => FetchResponse 401 (Throw "Unexpected end of JSON input")).

(** [s] does not contain the character [sep]. *)
Fixpoint lacks (sep : ascii) (s : string) : bool :=
  match s with
  | EmptyString => true
  | String c r => negb (Ascii.eqb c sep) && lacks sep r
  end.

(** [s] contains no character that [trim] strips. *)
Fixpoint spaceless (s : string) : bool :=
  match s with
  | EmptyString => true
  | String c r => negb (JsString.is_whitespace c) && spaceless r
  end.

(** A profile link whose [href] is [h], matched by the fourth selector
    only. *)
Definition profile_page (h : string) : Page :=
  mkPage EmptyString
         (fun key => if String.eqb key "profileLink"
                     then Some (mkElement None EmptyString (Some h))
                     else None)
         "/explore" (fun _ => FetchFailed "Failed to fetch").

Definition is_digit (c : ascii) : bool :=
  let n := nat_of_ascii c in ((48 <=? n) && (n <=? 57))%nat.

Definition digit_value (c : ascii) : Z := Z.of_nat (nat_of_ascii c) - 48.

(** [extractYear] of the content script on a text argument: the first
    four consecutive digits, read as a decimal number; [None] is [null]. *)
Fixpoint extractYear (dateString : string) : option Z :=
  match dateString with
  | EmptyString => None
  | String a r =>
      match r with
      | String b (String c (String d _)) =>
          if is_digit a && is_digit b && is_digit c && is_digit d
          then Some (1000 * digit_value a + 100 * digit_value b
                     + 10 * digit_value c + digit_value d)
          else extractYear r
      | _ => extractYear r
      end
  end.

(** The search endpoint answered with a 2xx status and a JSON body that
    is not [null] and whose [data] is falsy or the array [upstream]. *)
Definition search_answered (page : Page) (query pageNo : JsVal)
    (upstream : list JsVal) : Prop :=
  exists (status : Z) (data : JsVal),
    fetch page (search_url query pageNo) = FetchResponse status (Normal data)
    /\ Agent.ok status = true
    /\ nullish data = false
    /\ Js.or (Js.propOpt data "data") (JArr []) = JArr upstream.

(** A content body that nests the movie under [data]. *)
Definition dune_details_body : JsVal :=
  JObj [("data", JObj [("slug", JStr "dune-2021"); ("name", JStr "Dune")])].

(** The three probes of the auth check, as yes/no questions. *)
Definition cookie_found (page : Page) : bool :=
  existsb Agent.cookie_is_auth (JsString.split ";" (cookie page)).

Definition indicator_found (page : Page) : bool :=
  existsb (fun key => match querySelector page key with Some _ => true | None => false end)
          Agent.authSelectors.

Definition on_login_page (page : Page) : bool :=
  String.eqb (pathname page) "/login" || String.eqb (pathname page) "/signup".

Definition profile_answered (page : Page) : bool :=
  match fetch page "/api/me" with
  | FetchResponse status (Normal data) => Agent.ok status && negb (nullish data)
  | _ => false
  end.

(** *** Query identity, in the spec's words *)

(** A capital letter among the code units below 256: A-Z and the Latin-1
    capitals; its small letter is 32 further on. *)
Definition is_capital (c : ascii) : bool :=
  let n := nat_of_ascii c in
  ((65 <=? n) && (n <=? 90) || (192 <=? n) && (n <=? 222) && negb (n =? 215))%nat.

(** The same character, or the capital and the small form of one letter. *)
Definition same_letter (a b : ascii) : bool :=
  Ascii.eqb a b
  || is_capital a && (nat_of_ascii b =? nat_of_ascii a + 32)%nat
  || is_capital b && (nat_of_ascii a =? nat_of_ascii b + 32)%nat.

Fixpoint same_ignoring_case (s t : string) : bool :=
  match s, t with
  | EmptyString, EmptyString => true
  | String a s', String b t' => same_letter a b && same_ignoring_case s' t'
  | _, _ => false
  end.

(** [q] is [core] with whitespace before and after it. *)
Definition surrounded (core q : string) : Prop :=
  exists l r : string,
    JsString.all_whitespace l = true /\ JsString.all_whitespace r = true
    /\ q = l ++ core ++ r.

(** Two queries that differ only in surrounding whitespace and in the
    case of their letters. *)
Definition equivalent_queries (q1 q2 : string) : Prop :=
  exists c1 c2 : string,
    surrounded c1 q1 /\ surrounded c2 q2 /\ same_ignoring_case c1 c2 = true.

(* ====================================================================== *)
(** * Properties *)
(* ====================================================================== *)

(** ** Strings *)

Lemma trimEnd_empty_iff s :
  JsString.trimEnd s = EmptyString <-> JsString.all_whitespace s = true.
Proof.
  induction s as [|c r IH]; simpl; [tauto|].
  destruct (JsString.trimEnd r) eqn:E.
  - destruct (JsString.is_whitespace c); simpl.
    + tauto.
    + split; discriminate.
  - split; [discriminate|].
    intros H. apply andb_true_iff in H as [_ H].
    apply IH in H. discriminate.
Qed.

Lemma all_whitespace_trimStart s :
  JsString.all_whitespace (JsString.trimStart s) = JsString.all_whitespace s.
Proof.
  induction s as [|c r IH]; simpl; [reflexivity|].
  destruct (JsString.is_whitespace c) eqn:E; simpl; [exact IH|].
  rewrite E. reflexivity.
Qed.

Lemma trim_empty_iff s :
  JsString.trim s = EmptyString <-> JsString.all_whitespace s = true.
Proof.
  unfold JsString.trim. rewrite trimEnd_empty_iff, all_whitespace_trimStart. tauto.
Qed.

Lemma toLowerCase_empty_iff s :
  JsString.toLowerCase s = EmptyString <-> s = EmptyString.
Proof. destruct s; simpl; split; congruence. Qed.


Example trim_lower_Dune : JsString.toLowerCase (JsString.trim "  Dune  ") = "dune".
Proof. reflexivity. Qed.

Example generateKey_status :
  CacheManager.generateKey "sessionState" [JStr "status"] = "sessionState:status".
Proof. reflexivity. Qed.

Example encodeURIComponent_space :
  Agent.encodeURIComponent "star wars: iv" = "star%20wars%3A%20iv".
Proof. reflexivity. Qed.

Example toString_year : Js.toString (JNum 2021) = "2021".
Proof. vm_compute. reflexivity. Qed.

Example match_profile_alice : Agent.match_profile "https://x/u/alice/lists" = Some "alice".
Proof. reflexivity. Qed.

Example split_cookie :
  JsString.split ";" "a=1; auth_token=xyz" = ["a=1"; " auth_token=xyz"].
Proof. reflexivity. Qed.

(** ** The cache store *)

Lemma ttl_of_categories :
  CacheManager.ttl "sessionState" = TtlNumber 60000
  /\ CacheManager.ttl "searchResults" = TtlNumber 300000
  /\ CacheManager.ttl "movieDetails" = TtlNumber 900000.
Proof. repeat split; reflexivity. Qed.

Lemma ttl_number_bounds type ms :
  CacheManager.ttl type = TtlNumber ms -> 60000 <= ms <= 900000.
Proof.
  unfold CacheManager.ttl, CACHE_TTL.
  destruct (String.eqb type "searchResults"); [intros [= <-]; lia|].
  destruct (String.eqb type "movieDetails"); [intros [= <-]; lia|].
  destruct (String.eqb type "sessionState"); [intros [= <-]; lia|].
  destruct (existsb (String.eqb type) Object_prototype_names);
    [discriminate|intros [= <-]; lia].
Qed.

(** A name [Object.prototype] does not define has a numeric TTL. *)
Lemma ttl_number_outside_prototype type :
  existsb (String.eqb type) Object_prototype_names = false ->
  exists ms, CacheManager.ttl type = TtlNumber ms.
Proof.
  intros H. unfold CacheManager.ttl, CACHE_TTL.
  destruct (String.eqb type "searchResults"); [eexists; reflexivity|].
  destruct (String.eqb type "movieDetails"); [eexists; reflexivity|].
  destruct (String.eqb type "sessionState"); [eexists; reflexivity|].
  rewrite H. eexists; reflexivity.
Qed.

(** An entry stored under an inherited name never lapses. *)
Lemma inherited_ttl_never_expires now t value K cache :
  CacheManager.get t "toString" K (CacheManager.set now "toString" value K cache)
  = (value, CacheManager.set now "toString" value K cache).
Proof.
  unfold CacheManager.get, CacheManager.set.
  rewrite lookup_insert_eq. reflexivity.
Qed.

(** C3. A value stored under category [type] (with numeric TTL [ms]) and
    key tuple [K] at time [t0] is returned by a lookup made immediately,
    and by any lookup made no later than [t0 + ms]. A lookup made after
    [t0 + ms] returns absent ([null]) and removes the entry; on the purged
    cache every further lookup, at any time, returns absent and leaves the
    cache as it is. *)
Theorem cache_set_then_get (type : string) (K : list JsVal) (v : JsVal)
    (cache : gmap string CacheEntry) (t0 ms : Z) :
  CacheManager.ttl type = TtlNumber ms ->
  let stored := CacheManager.set t0 type v K cache in
  let purged := delete (CacheManager.generateKey type K) stored in
  CacheManager.get t0 type K stored = (v, stored)
  /\ (forall t, t <= t0 + ms -> CacheManager.get t type K stored = (v, stored))
  /\ (forall t, t0 + ms < t ->
        CacheManager.get t type K stored = (JNull, purged)
        /\ purged !! CacheManager.generateKey type K = None
        /\ forall t', CacheManager.get t' type K purged = (JNull, purged)).
Proof.
  intros Httl stored purged.
  pose proof (ttl_number_bounds _ _ Httl) as Hms.
  assert (Hlook : stored !! CacheManager.generateKey type K
                  = Some (mkEntry v (ExpNumber (t0 + ms)))).
  { unfold stored, CacheManager.set, CacheManager.expiry.
    rewrite Httl. apply lookup_insert_eq. }
  assert (Hfresh : forall t, t <= t0 + ms ->
                     CacheManager.get t type K stored = (v, stored)).
  { intros t Ht. unfold CacheManager.get. rewrite Hlook.
    unfold CacheManager.expired. simpl.
    destruct (Z.ltb_spec (t0 + ms) t); [lia|reflexivity]. }
  split; [apply Hfresh; lia|].
  split; [exact Hfresh|].
  intros t Ht.
  assert (Hgone : purged !! CacheManager.generateKey type K = None)
    by apply lookup_delete_eq.
  repeat split.
  - unfold CacheManager.get. rewrite Hlook.
    unfold CacheManager.expired. simpl.
    destruct (Z.ltb_spec (t0 + ms) t); [reflexivity|lia].
  - exact Hgone.
  - intros t'. unfold CacheManager.get. rewrite Hgone. reflexivity.
Qed.

Lemma cache_set_then_get_witness :
  CacheManager.ttl "sessionState" = TtlNumber 60000
  /\ CacheManager.get 1000 "sessionState" [JStr "status"]
       (CacheManager.set 1000 "sessionState" (JBool true) [JStr "status"] ∅)
     = (JBool true,
        CacheManager.set 1000 "sessionState" (JBool true) [JStr "status"] ∅).
Proof.
  split; [reflexivity|].
  exact (proj1 (cache_set_then_get "sessionState" [JStr "status"] (JBool true) ∅
                  1000 60000 eq_refl)).
Defined.

(** The lookup is still served at the very instant [expiresAt]. *)
Lemma cache_get_at_expiry type K v cache t0 ms :
  CacheManager.ttl type = TtlNumber ms ->
  CacheManager.get (t0 + ms) type K (CacheManager.set t0 type v K cache)
  = (v, CacheManager.set t0 type v K cache).
Proof.
  intros Httl. unfold CacheManager.get, CacheManager.set, CacheManager.expiry.
  rewrite Httl, lookup_insert_eq. unfold CacheManager.expired. simpl.
  rewrite Z.ltb_irrefl. reflexivity.
Qed.

(** ** Key construction *)

Lemma colon_split (x y a b : string) :
  colon_free x = true -> colon_free y = true ->
  x ++ String ":" a = y ++ String ":" b -> x = y /\ a = b.
Proof.
  revert y. induction x as [|c x IH]; intros [|d y] Hx Hy H; cbn in *.
  - injection H as ->. split; reflexivity.
  - injection H as <- _. discriminate.
  - injection H as -> _. discriminate.
  - injection H as -> H.
    apply andb_true_iff in Hx as [_ Hx]. apply andb_true_iff in Hy as [_ Hy].
    destruct (IH y Hx Hy H) as [-> ->]. split; reflexivity.
Qed.






(** The colon-free condition on longer tuples is needed as well: a colon
    inside an argument is indistinguishable from the separator. No call
    site of the router passes more than one argument. *)
Lemma generateKey_colon_is_separator :
  CacheManager.generateKey "searchResults" [JStr "a:b"]
  = CacheManager.generateKey "searchResults" [JStr "a"; JStr "b"].
Proof. reflexivity. Qed.

(** ** The locator and the agent round trip *)

Ltac run :=
  unfold pipeline, sendToContentScript, findMoctaleTab, ensureContentScriptInjected,
    read, bind, ret, throw, await, emit, Date_now, storage_get, storage_set,
    storage_remove; cbn [fst snd now cache pendingSearch trace negb].

Lemma new_events_app (w w' : World) (evs : list Event) :
  trace w' = (trace w ++ evs)%list -> new_events w w' = evs.
Proof. intros H. unfold new_events. rewrite H. apply drop_app_length. Qed.


Ltac frame_done :=
  rewrite <- ?app_assoc, <- ?Z.add_assoc;
  eexists _, _, _; split; [reflexivity|reflexivity].

(** The round trip always completes with an envelope, never touches the
    cache or the pending-search slot, and records browser calls only. *)
Lemma sendToContentScript_frame (env : Env) (message : JsVal) (w : World) :
  exists (r : JsVal) (dt : Z) (evs : list Event),
    sendToContentScript env message w
    = (Normal r, mkWorld (now w + dt) (cache w) (pendingSearch w) (trace w ++ evs))
    /\ forallb (fun ev => negb (is_cache_event ev)) evs = true.
Proof.
  run.
  destruct (find (is_moctale_tab) (tabs env)) as [tab|]; run; [|frame_done].
  destruct (sendMessage env (tab_id tab) (JObj [("type", JStr "PING")])) as [pong|]; run.
  - destruct (match Js.propOpt pong "pong" with JBool true => true | _ => false end); run.
    + destruct (sendMessage env (tab_id tab) message); run; frame_done.
    + frame_done.
  - destruct (executeScript env (tab_id tab)); run.
    + destruct (sendMessage env (tab_id tab) message); run; frame_done.
    + frame_done.
Qed.

(** The three failures raised on the coordinator's side of the round
    trip: no tab on the site, a tab where the agent neither answers the
    probe nor can be injected, and a request the tab rejects. *)
Lemma no_tab_is_reported env message w :
  find is_moctale_tab (tabs env) = None ->
  fst (sendToContentScript env message w)
  = Normal (envelope_failure "NO_MOCTALE_TAB"
              "Please open moctale.in in a browser tab first").
Proof. intros H. run. rewrite H. reflexivity. Qed.

Lemma injection_failure_is_reported env tab message w :
  find is_moctale_tab (tabs env) = Some tab ->
  sendMessage env (tab_id tab) ping = None ->
  executeScript env (tab_id tab) = false ->
  fst (sendToContentScript env message w)
  = Normal (envelope_failure "INJECTION_FAILED" "Failed to connect to Moctale tab").
Proof.
  intros Hfind Hping Hinject. run. rewrite Hfind. run.
  fold ping. rewrite Hping. run. rewrite Hinject. reflexivity.
Qed.

Lemma rejected_request_is_reported env tab pong message w :
  find is_moctale_tab (tabs env) = Some tab ->
  sendMessage env (tab_id tab) ping = Some pong ->
  Js.propOpt pong "pong" = JBool true ->
  sendMessage env (tab_id tab) message = None ->
  fst (sendToContentScript env message w)
  = Normal (envelope_failure "COMMUNICATION_ERROR"
              "Failed to communicate with Moctale tab").
Proof.
  intros Hfind Hping Hpong Hsend. run. rewrite Hfind. run.
  fold ping. rewrite Hping. run. rewrite Hpong. run. rewrite Hsend. reflexivity.
Qed.

(** ** The cache lookup inside a handler *)

Lemma cacheManager_get_frame (type : string) (args : list JsVal) (w : World) :
  let key := CacheManager.generateKey type args in
  exists (v : JsVal) (c1 : gmap string CacheEntry) (pe : list Event),
    cacheManager_get type args w
    = (Normal v, mkWorld (now w) c1 (pendingSearch w) (trace w ++ pe))
    /\ v = fst (CacheManager.get (now w) type args (cache w))
    /\ (forall k, ~ In (CacheSet k) pe)
    /\ (forall k e, c1 !! k = Some e -> cache w !! k = Some e)
    /\ (forall k e, cache w !! k = Some e ->
          c1 !! k = Some e \/ (k = key /\ CacheManager.expired (now w) e = true))
    /\ (v <> JNull -> c1 = cache w /\ pe = []).
Proof.
  intros key. unfold cacheManager_get, CacheManager.get. fold key.
  destruct (cache w !! key) as [e|] eqn:E.
  - destruct (CacheManager.expired (now w) e) eqn:X.
    + eexists _, _, _. split; [reflexivity|]. split; [reflexivity|].
      split; [intros k [H|[]]; discriminate|].
      split; [intros k e' H; apply lookup_delete_Some in H as [_ H]; exact H|].
      split; [|intros H; contradiction].
      intros k e' H. destruct (decide (k = key)) as [->|Hne].
      * right. rewrite E in H. injection H as <-. auto.
      * left. rewrite lookup_delete_ne; auto.
    + eexists _, _, _. split; [reflexivity|]. split; [reflexivity|].
      split; [intros k []|]. repeat split; auto.
  - eexists _, _, _. split; [reflexivity|]. split; [reflexivity|].
    split; [intros k []|]. repeat split; auto.
Qed.

Lemma no_cache_event_in (evs : list Event) (k : string) :
  forallb (fun ev => negb (is_cache_event ev)) evs = true -> ~ In (CacheSet k) evs.
Proof.
  intros H Hin. rewrite forallb_forall in H. specialize (H _ Hin). discriminate.
Qed.

(** What a run of the shared pipeline amounts to, given the outcome of
    its lookup and of its round trip. *)
Lemma pipeline_run env type args annotate message w v w1 r w2 :
  cacheManager_get type args w = (Normal v, w1) ->
  sendToContentScript env message w1 = (Normal r, w2) ->
  pipeline env type args annotate message w
  = if negb (is_null v) then (Normal (annotate v), w1)
    else match Js.prop r "success" with
         | None => (Throw (cannot_read r "success"), w2)
         | Some s =>
             if Js.truthy s
             then (Normal r,
                   mkWorld (now w2) (CacheManager.set (now w2) type r args (cache w2))
                           (pendingSearch w2)
                           (trace w2 ++ [CacheSet (CacheManager.generateKey type args)]))
             else (Normal r, w2)
         end.
Proof.
  intros Hget Hsend. unfold pipeline, bind. rewrite Hget.
  destruct (negb (is_null v)); [reflexivity|].
  rewrite Hsend. unfold read.
  destruct (Js.prop r "success") as [s|]; [|reflexivity].
  unfold ret. destruct (Js.truthy s); reflexivity.
Qed.

Lemma propOpt_prop v k x : Js.prop v k = Some x -> Js.propOpt v k = x.
Proof. unfold Js.propOpt. intros ->. reflexivity. Qed.

Lemma pipeline_writes_cache_only_on_success env type args annotate message :
  writes_cache_only_on_success env (pipeline env type args annotate message)
    type args message.
Proof.
  unfold writes_cache_only_on_success. split; [|split].
  - intros w w' result k Hop Hin.
    destruct (cacheManager_get_frame type args w)
      as (v & c1 & pe & Hget & _ & Hpe & _ & _ & Hhit).
    destruct (sendToContentScript_frame env message
                (mkWorld (now w) c1 (pendingSearch w) (trace w ++ pe)))
      as (r & dt & evs & Hsend & Hevs).
    rewrite (pipeline_run _ _ _ _ _ _ _ _ _ _ Hget Hsend) in Hop.
    rewrite Hget. cbn [fst snd]. rewrite Hsend. cbn [fst snd].
    cbn [now cache pendingSearch trace] in Hop.
    destruct (negb (is_null v)) eqn:Hv.
    { injection Hop as <- <-.
      destruct Hhit as [_ ->]; [intros ->; discriminate|].
      erewrite new_events_app in Hin by reflexivity. destruct Hin. }
    destruct (Js.prop r "success") as [s|] eqn:Hs.
    2:{ injection Hop as <- <-.
        erewrite new_events_app in Hin
          by (cbn [trace]; rewrite <- app_assoc; reflexivity).
        apply in_app_or in Hin as [Hin|Hin];
          [exact (False_ind _ (Hpe _ Hin))|exact (False_ind _ (no_cache_event_in _ _ Hevs Hin))]. }
    destruct (Js.truthy s) eqn:Ht.
    + injection Hop as <- <-.
      erewrite new_events_app in Hin
        by (cbn [trace]; rewrite <- !app_assoc; reflexivity).
      apply in_app_or in Hin as [Hin|Hin]; [exact (False_ind _ (Hpe _ Hin))|].
      apply in_app_or in Hin as [Hin|Hin];
        [exact (False_ind _ (no_cache_event_in _ _ Hevs Hin))|].
      destruct Hin as [[= <-]|[]].
      split; [reflexivity|]. exists r.
      rewrite (propOpt_prop _ _ _ Hs). auto.
    + injection Hop as <- <-.
      erewrite new_events_app in Hin
        by (cbn [trace]; rewrite <- app_assoc; reflexivity).
      apply in_app_or in Hin as [Hin|Hin];
        [exact (False_ind _ (Hpe _ Hin))|exact (False_ind _ (no_cache_event_in _ _ Hevs Hin))].
  - intros w w' result k e Hop Hk.
    destruct (cacheManager_get_frame type args w)
      as (v & c1 & pe & Hget & _ & _ & Hold & _ & Hhit).
    destruct (sendToContentScript_frame env message
                (mkWorld (now w) c1 (pendingSearch w) (trace w ++ pe)))
      as (r & dt & evs & Hsend & _).
    rewrite (pipeline_run _ _ _ _ _ _ _ _ _ _ Hget Hsend) in Hop.
    cbn [now cache pendingSearch trace] in Hop.
    destruct (negb (is_null v)); [injection Hop as <- <-; left; eauto|].
    destruct (Js.prop r "success") as [s|] eqn:Hs;
      [|injection Hop as <- <-; left; eauto].
    destruct (Js.truthy s) eqn:Ht; [|injection Hop as <- <-; left; eauto].
    injection Hop as <- <-. cbn [cache] in Hk. unfold CacheManager.set in Hk.
    destruct (decide (k = CacheManager.generateKey type args)) as [->|Hne].
    + rewrite lookup_insert_eq in Hk. injection Hk as <-.
      right. split; [reflexivity|]. exists r.
      rewrite (propOpt_prop _ _ _ Hs). auto.
    + rewrite lookup_insert_ne in Hk by congruence. left. eauto.
  - intros w w2 resp s Hmiss Hsend Hs Ht.
    destruct (cacheManager_get_frame type args w)
      as (v & c1 & pe & Hget & _ & Hpe & Hold & Hkeep & _).
    rewrite Hget in Hmiss, Hsend. cbn [fst snd] in Hmiss, Hsend.
    injection Hmiss as ->.
    rewrite (pipeline_run _ _ _ _ _ _ _ _ _ _ Hget Hsend).
    cbn [is_null negb]. rewrite Hs, Ht.
    split; [reflexivity|].
    destruct (sendToContentScript_frame env message
                (mkWorld (now w) c1 (pendingSearch w) (trace w ++ pe)))
      as (r & dt & evs & Hsend' & Hevs).
    rewrite Hsend in Hsend'. injection Hsend' as -> ->.
    cbn [now cache pendingSearch trace].
    split; [|split; assumption].
    intros k Hin.
    erewrite new_events_app in Hin
      by (cbn [trace]; rewrite <- app_assoc; reflexivity).
    apply in_app_or in Hin as [Hin|Hin];
      [exact (Hpe _ Hin)|exact (no_cache_event_in _ _ Hevs Hin)].
Qed.

(** ** The three handlers are instances of the pipeline *)

Lemma handleCheckSession_pipeline env :
  handleCheckSession env
  = pipeline env "sessionState" [JStr "status"] (fun v => v) checkAuthMessage.
Proof. reflexivity. Qed.

Lemma handleSearchMovies_pipeline env q :
  JsString.trim q <> EmptyString ->
  handleSearchMovies env (JStr q)
  = pipeline env "searchResults" [JStr (normalizedQuery q)] with_cached (searchMessage q).
Proof.
  intros Hq. unfold handleSearchMovies.
  destruct q as [|c q]; [contradiction Hq; reflexivity|].
  cbn [Js.truthy negb].
  destruct (JsString.trim (String c q)); [contradiction Hq; reflexivity|].
  reflexivity.
Qed.

Lemma handleGetMovieDetails_pipeline env movieId :
  Js.truthy movieId = true ->
  handleGetMovieDetails env movieId
  = pipeline env "movieDetails" [movieId] with_cached (detailsMessage movieId).
Proof. intros H. unfold handleGetMovieDetails. rewrite H. reflexivity. Qed.

Lemma world_eta (w : World) :
  mkWorld (now w) (cache w) (pendingSearch w) (trace w ++ []) = w.
Proof. destruct w; cbn. rewrite app_nil_r. reflexivity. Qed.

(** A live entry is returned, annotated, without leaving the handler. *)
Lemma pipeline_hit env type args annotate message w e :
  cache w !! CacheManager.generateKey type args = Some e ->
  CacheManager.expired (now w) e = false ->
  data e <> JNull ->
  pipeline env type args annotate message w = (Normal (annotate (data e)), w).
Proof.
  intros He Hx Hd. unfold pipeline, bind, cacheManager_get, CacheManager.get.
  rewrite He, Hx. cbn [fst snd].
  destruct (data e) eqn:D; try contradiction; cbn [is_null negb ret];
    rewrite world_eta; reflexivity.
Qed.

Lemma assoc_set_same k x props : Js.assoc k (Js.assoc_set k x props) = Some x.
Proof.
  induction props as [|[k' v'] rest IH]; cbn.
  - rewrite String.eqb_refl. reflexivity.
  - destruct (String.eqb k k') eqn:E; cbn.
    + rewrite String.eqb_refl. reflexivity.
    + rewrite E. exact IH.
Qed.

Lemma with_cached_flag v : Js.prop (with_cached v) "cached" = Some (JBool true).
Proof. unfold with_cached, Js.prop. rewrite assoc_set_same. reflexivity. Qed.

(** C1, as amended. Each agent-bound handler writes the cache only after
    the agent replied with a truthy [success] (for the agent's boolean
    envelopes: [success = true]). When its lookup misses and the round
    trip ends in a locator failure or an agent failure envelope, the
    handler returns that envelope itself and records no cache write; no
    entry is added or altered, and none is removed except an expired
    entry under the handler's own key, which the lookup purges. *)
Theorem failures_are_not_cached (env : Env) :
  writes_cache_only_on_success env (handleCheckSession env)
    "sessionState" [JStr "status"] checkAuthMessage
  /\ (forall q : string,
        JsString.trim q <> EmptyString ->
        writes_cache_only_on_success env (handleSearchMovies env (JStr q))
          "searchResults" [JStr (normalizedQuery q)] (searchMessage q))
  /\ (forall movieId : JsVal,
        Js.truthy movieId = true ->
        writes_cache_only_on_success env (handleGetMovieDetails env movieId)
          "movieDetails" [movieId] (detailsMessage movieId)).
Proof.
  split; [|split].
  - rewrite handleCheckSession_pipeline.
    apply pipeline_writes_cache_only_on_success.
  - intros q Hq. rewrite (handleSearchMovies_pipeline _ _ Hq).
    apply pipeline_writes_cache_only_on_success.
  - intros movieId Hid. rewrite (handleGetMovieDetails_pipeline _ _ Hid).
    apply pipeline_writes_cache_only_on_success.
Qed.

Lemma failures_are_not_cached_witness :
  handleCheckSession no_tab_env stale_session_world
  = (Normal (envelope_failure "NO_MOCTALE_TAB"
               "Please open moctale.in in a browser tab first"),
     mkWorld 10 ∅ None [CacheDelete "sessionState:status"; TabsQuery]).
Proof.
  refine (proj1 (proj2 (proj2 (proj1 (failures_are_not_cached no_tab_env)))
                   stale_session_world _ _ (JBool false) _ _ _ _));
    vm_compute; reflexivity.
Defined.

Lemma stale_session_check_run :
  handleCheckSession no_tab_env stale_session_world
  = (Normal (envelope_failure "NO_MOCTALE_TAB"
               "Please open moctale.in in a browser tab first"),
     mkWorld 10 ∅ None [CacheDelete "sessionState:status"; TabsQuery]).
Proof. vm_compute. reflexivity. Qed.

(** C1, as stated, fails: a failed session check whose lookup met an
    expired entry leaves the cache without that entry. *)
Lemma failure_purges_stale_entry :
  ~ (forall (env : Env) (w w' : World) (resp : JsVal),
       handleCheckSession env w = (Normal resp, w') ->
       Js.truthy (Js.propOpt resp "success") = false ->
       cache w' = cache w).
Proof.
  intros H.
  specialize (H no_tab_env stale_session_world _ _
                stale_session_check_run eq_refl).
  apply (f_equal (fun c => c !! "sessionState:status")) in H.
  vm_compute in H. discriminate.
Qed.

(** ** Cache hits *)

(** On a hit the search and details handlers return the cached value with
    [cached] set; the session handler returns the cached value as it is. *)
Lemma handleSearchMovies_hit env q w e :
  JsString.trim q <> EmptyString ->
  cache w !! CacheManager.generateKey "searchResults" [JStr (normalizedQuery q)] = Some e ->
  CacheManager.expired (now w) e = false ->
  data e <> JNull ->
  handleSearchMovies env (JStr q) w = (Normal (with_cached (data e)), w).
Proof.
  intros Hq. rewrite (handleSearchMovies_pipeline _ _ Hq). apply pipeline_hit.
Qed.

Lemma handleGetMovieDetails_hit env movieId w e :
  Js.truthy movieId = true ->
  cache w !! CacheManager.generateKey "movieDetails" [movieId] = Some e ->
  CacheManager.expired (now w) e = false ->
  data e <> JNull ->
  handleGetMovieDetails env movieId w = (Normal (with_cached (data e)), w).
Proof.
  intros Hid. rewrite (handleGetMovieDetails_pipeline _ _ Hid). apply pipeline_hit.
Qed.

(** The shared key at work: a details request for the text [42] is
    answered from the entry stored for the number 42. *)
Lemma details_text_id_served_from_number_id env w e :
  cache w !! CacheManager.generateKey "movieDetails" [JNum 42] = Some e ->
  CacheManager.expired (now w) e = false ->
  data e <> JNull ->
  handleGetMovieDetails env (JStr "42") w = (Normal (with_cached (data e)), w).
Proof.
  intros He. apply handleGetMovieDetails_hit; [reflexivity|].
  rewrite <- He. f_equal.
Qed.

Lemma handleCheckSession_hit env w e :
  cache w !! CacheManager.generateKey "sessionState" [JStr "status"] = Some e ->
  CacheManager.expired (now w) e = false ->
  data e <> JNull ->
  handleCheckSession env w = (Normal (data e), w).
Proof.
  rewrite handleCheckSession_pipeline.
  apply (pipeline_hit env "sessionState" [JStr "status"] (fun v => v)).
Qed.

(** C2, evaluated where it fails. A first session check against an agent
    reporting alice returns her payload and caches it; a second check 59
    seconds later is served from the cache with no browser call, and what
    it returns is the cached payload itself, whose [cached] property is
    undefined, not the payload annotated as the search and details
    handlers would annotate it. *)
Theorem checkSession_hit_is_not_annotated :
  handleCheckSession alice_env (fresh_world 1000) = (Normal alice_session, alice_cached_world)
  /\ handleCheckSession alice_env (later 59000 alice_cached_world)
     = (Normal alice_session, later 59000 alice_cached_world)
  /\ new_events (later 59000 alice_cached_world) (later 59000 alice_cached_world) = []
  /\ Js.prop alice_session "cached" = Some JUndefined
  /\ Js.prop (with_cached alice_session) "cached" = Some (JBool true).
Proof.
  split; [vm_compute; reflexivity|].
  split; [|split; [vm_compute; reflexivity|split; reflexivity]].
  apply (handleCheckSession_hit alice_env (later 59000 alice_cached_world)
           (mkEntry alice_session (ExpNumber 61075)));
    [vm_compute; reflexivity|reflexivity|discriminate].
Qed.

(** ** Query validation and normalisation *)

(** C4. A query that is empty or consists of whitespace only is answered
    with the [INVALID_QUERY] failure envelope, and the world is left
    exactly as it was: the trace gains no event (the agent is not
    contacted) and the cache gains no entry. *)
Theorem blank_query_is_rejected (env : Env) (q : string) (w : World) :
  JsString.all_whitespace q = true ->
  handleSearchMovies env (JStr q) w = (Normal invalid_query, w)
  /\ Js.prop invalid_query "success" = Some (JBool false)
  /\ Js.prop invalid_query "error" = Some (JStr "INVALID_QUERY")
  /\ new_events w w = [].
Proof.
  intros Hq.
  split; [|repeat split; unfold new_events; rewrite ?drop_all; reflexivity].
  unfold handleSearchMovies.
  destruct q as [|c q]; [reflexivity|].
  cbn [Js.truthy negb].
  apply trim_empty_iff in Hq. rewrite Hq. reflexivity.
Qed.

Lemma blank_query_is_rejected_witness :
  handleSearchMovies alice_env (JStr "   ") alice_cached_world
  = (Normal invalid_query, alice_cached_world)
  /\ Js.prop invalid_query "success" = Some (JBool false)
  /\ Js.prop invalid_query "error" = Some (JStr "INVALID_QUERY")
  /\ new_events alice_cached_world alice_cached_world = [].
Proof.
  apply (blank_query_is_rejected alice_env "   " alice_cached_world). reflexivity.
Defined.

(** A request that carries no query at all is rejected the same way. *)
Lemma missing_query_is_rejected env w :
  handleSearchMovies env JUndefined w = (Normal invalid_query, w).
Proof. reflexivity. Qed.

Lemma normalizedQuery_valid q1 q2 :
  normalizedQuery q1 = normalizedQuery q2 ->
  JsString.trim q1 <> EmptyString -> JsString.trim q2 <> EmptyString.
Proof.
  unfold normalizedQuery. intros H H1 H2. rewrite H2 in H.
  change (JsString.toLowerCase EmptyString) with EmptyString in H.
  exact (H1 (proj1 (toLowerCase_empty_iff _) H)).
Qed.

Lemma trimStart_whitespace_app l s :
  JsString.all_whitespace l = true -> JsString.trimStart (l ++ s) = JsString.trimStart s.
Proof.
  induction l as [|c l IH]; intros H; [reflexivity|].
  cbn [JsString.all_whitespace] in H. apply andb_true_iff in H as [Hc Hl].
  change (String c l ++ s) with (String c (l ++ s)).
  cbn [JsString.trimStart]. rewrite Hc. exact (IH Hl).
Qed.

Lemma trimEnd_app_whitespace s r :
  JsString.all_whitespace r = true -> JsString.trimEnd (s ++ r) = JsString.trimEnd s.
Proof.
  intros Hr. induction s as [|c s IH].
  - change (EmptyString ++ r) with r. apply trimEnd_empty_iff. exact Hr.
  - change (String c s ++ r) with (String c (s ++ r)).
    cbn [JsString.trimEnd]. rewrite IH. reflexivity.
Qed.

Lemma trim_app_whitespace s r :
  JsString.all_whitespace r = true -> JsString.trim (s ++ r) = JsString.trim s.
Proof.
  intros Hr. unfold JsString.trim. induction s as [|c s IH].
  - change (EmptyString ++ r) with r. cbn [JsString.trimStart JsString.trimEnd].
    apply trimEnd_empty_iff. rewrite all_whitespace_trimStart. exact Hr.
  - change (String c s ++ r) with (String c (s ++ r)).
    cbn [JsString.trimStart]. destruct (JsString.is_whitespace c); [exact IH|].
    change (String c (s ++ r)) with (String c s ++ r).
    apply trimEnd_app_whitespace. exact Hr.
Qed.

Lemma trim_surrounded core q : surrounded core q -> JsString.trim q = JsString.trim core.
Proof.
  intros (l & r & Hl & Hr & ->).
  unfold JsString.trim at 1. rewrite (trimStart_whitespace_app _ _ Hl).
  exact (trim_app_whitespace core r Hr).
Qed.

Lemma trimStart_suffix s :
  exists l, JsString.all_whitespace l = true /\ s = l ++ JsString.trimStart s.
Proof.
  induction s as [|c s (l & Hl & IH)]; [exists EmptyString; split; reflexivity|].
  cbn [JsString.trimStart]. destruct (JsString.is_whitespace c) eqn:Hc.
  - exists (String c l). split; [cbn [JsString.all_whitespace]; rewrite Hc; exact Hl|].
    change (String c l ++ JsString.trimStart s) with (String c (l ++ JsString.trimStart s)).
    f_equal. exact IH.
  - exists EmptyString. split; reflexivity.
Qed.

Lemma trimEnd_prefix s :
  exists r, JsString.all_whitespace r = true /\ s = JsString.trimEnd s ++ r.
Proof.
  induction s as [|c s (r & Hr & IH)]; [exists EmptyString; split; reflexivity|].
  cbn [JsString.trimEnd]. destruct (JsString.trimEnd s) as [|d t] eqn:E.
  - destruct (JsString.is_whitespace c) eqn:Hc.
    + exists (String c s). split; [|reflexivity].
      cbn [JsString.all_whitespace]. rewrite Hc. apply trimEnd_empty_iff. exact E.
    + exists r. split; [exact Hr|].
      change (String c EmptyString ++ r) with (String c (EmptyString ++ r)).
      f_equal. exact IH.
  - exists r. split; [exact Hr|].
    change (String c (String d t) ++ r) with (String c (String d t ++ r)).
    f_equal. exact IH.
Qed.

Lemma surrounded_trim q : surrounded (JsString.trim q) q.
Proof.
  destruct (trimStart_suffix q) as (l & Hl & Hq).
  destruct (trimEnd_prefix (JsString.trimStart q)) as (r & Hr & Hs).
  exists l, r. split; [exact Hl|split; [exact Hr|]].
  unfold JsString.trim. rewrite <- Hs. exact Hq.
Qed.

Lemma ascii_of_nat_of_ascii_eq a b : nat_of_ascii a = nat_of_ascii b -> a = b.
Proof.
  intros H. rewrite <- (ascii_nat_embedding a), <- (ascii_nat_embedding b), H. reflexivity.
Qed.

Lemma is_capital_lower_char c :
  JsString.lower_char c
  = if is_capital c then ascii_of_nat (nat_of_ascii c + 32) else c.
Proof. reflexivity. Qed.

Lemma is_capital_bound c : is_capital c = true -> (nat_of_ascii c + 32 < 256)%nat.
Proof.
  unfold is_capital. intros H. apply orb_true_iff in H as [H|H].
  - apply andb_true_iff in H as [_ H]. apply Nat.leb_le in H. lia.
  - apply andb_true_iff in H as [H _]. apply andb_true_iff in H as [_ H].
    apply Nat.leb_le in H. lia.
Qed.

Lemma is_capital_small c :
  is_capital c = true -> is_capital (ascii_of_nat (nat_of_ascii c + 32)) = false.
Proof.
  intros H. pose proof (is_capital_bound c H) as Hb.
  unfold is_capital in *. rewrite (nat_ascii_embedding _ Hb).
  apply orb_true_iff in H as [H|H].
  - apply andb_true_iff in H as [H1 H2]. apply Nat.leb_le in H1, H2.
    apply orb_false_iff. split; apply andb_false_iff.
    + right. apply Nat.leb_gt. lia.
    + left. apply andb_false_iff. left. apply Nat.leb_gt. lia.
  - apply andb_true_iff in H as [H _]. apply andb_true_iff in H as [H1 H2].
    apply Nat.leb_le in H1, H2.
    apply orb_false_iff. split; apply andb_false_iff.
    + right. apply Nat.leb_gt. lia.
    + left. apply andb_false_iff. right. apply Nat.leb_gt. lia.
Qed.

Lemma same_letter_lower_char a b :
  same_letter a b = true <-> JsString.lower_char a = JsString.lower_char b.
Proof.
  rewrite !is_capital_lower_char. unfold same_letter. split.
  - intros H. apply orb_true_iff in H as [H|H]; [apply orb_true_iff in H as [H|H]|].
    + apply Ascii.eqb_eq in H as ->. reflexivity.
    + apply andb_true_iff in H as [Ha Hb]. apply Nat.eqb_eq in Hb.
      assert (b = ascii_of_nat (nat_of_ascii a + 32)) as ->
          by (rewrite <- Hb; symmetry; apply ascii_nat_embedding).
      rewrite Ha, (is_capital_small a Ha). reflexivity.
    + apply andb_true_iff in H as [Hb Ha]. apply Nat.eqb_eq in Ha.
      assert (a = ascii_of_nat (nat_of_ascii b + 32)) as ->
          by (rewrite <- Ha; symmetry; apply ascii_nat_embedding).
      rewrite Hb, (is_capital_small b Hb). reflexivity.
  - intros H.
    destruct (is_capital a) eqn:Ha, (is_capital b) eqn:Hb; cbn [andb orb].
    + pose proof (is_capital_bound a Ha). pose proof (is_capital_bound b Hb).
      apply (f_equal nat_of_ascii) in H. rewrite !nat_ascii_embedding in H by assumption.
      assert (a = b) as -> by (apply ascii_of_nat_of_ascii_eq; lia).
      rewrite Ascii.eqb_refl. reflexivity.
    + pose proof (is_capital_bound a Ha).
      apply (f_equal nat_of_ascii) in H. rewrite nat_ascii_embedding in H by assumption.
      rewrite <- H, Nat.eqb_refl. destruct (Ascii.eqb a b); reflexivity.
    + pose proof (is_capital_bound b Hb).
      apply (f_equal nat_of_ascii) in H. rewrite nat_ascii_embedding in H by assumption.
      rewrite H, Nat.eqb_refl. destruct (Ascii.eqb a b); reflexivity.
    + rewrite H, Ascii.eqb_refl. reflexivity.
Qed.

Lemma same_ignoring_case_toLowerCase s t :
  same_ignoring_case s t = true <-> JsString.toLowerCase s = JsString.toLowerCase t.
Proof.
  revert t. induction s as [|a s IH]; intros [|b t]; cbn [same_ignoring_case JsString.toLowerCase];
    try (split; [reflexivity + discriminate|reflexivity + discriminate]).
  rewrite andb_true_iff, same_letter_lower_char, IH. split.
  - intros [-> ->]. reflexivity.
  - intros [= -> ->]. split; reflexivity.
Qed.

Lemma is_whitespace_lower_char c :
  JsString.is_whitespace (JsString.lower_char c) = JsString.is_whitespace c.
Proof.
  destruct c as [[] [] [] [] [] [] [] []]; reflexivity.
Qed.

Lemma trimStart_toLowerCase s :
  JsString.trimStart (JsString.toLowerCase s) = JsString.toLowerCase (JsString.trimStart s).
Proof.
  induction s as [|c s IH]; [reflexivity|].
  cbn [JsString.toLowerCase JsString.trimStart]. rewrite is_whitespace_lower_char.
  destruct (JsString.is_whitespace c); [exact IH|reflexivity].
Qed.

Lemma trimEnd_toLowerCase s :
  JsString.trimEnd (JsString.toLowerCase s) = JsString.toLowerCase (JsString.trimEnd s).
Proof.
  induction s as [|c s IH]; [reflexivity|].
  cbn [JsString.toLowerCase JsString.trimEnd]. rewrite IH, is_whitespace_lower_char.
  destruct (JsString.trimEnd s) as [|d t]; cbn [JsString.toLowerCase].
  - destruct (JsString.is_whitespace c); reflexivity.
  - reflexivity.
Qed.

Lemma trim_toLowerCase s :
  JsString.trim (JsString.toLowerCase s) = JsString.toLowerCase (JsString.trim s).
Proof. unfold JsString.trim. rewrite trimStart_toLowerCase. apply trimEnd_toLowerCase. Qed.

(** The spec's identity of queries is the one the handler computes. *)
Lemma equivalent_queries_normalizedQuery q1 q2 :
  equivalent_queries q1 q2 <-> normalizedQuery q1 = normalizedQuery q2.
Proof.
  unfold normalizedQuery. split.
  - intros (c1 & c2 & H1 & H2 & Hc).
    rewrite (trim_surrounded _ _ H1), (trim_surrounded _ _ H2), <- !trim_toLowerCase.
    f_equal. apply same_ignoring_case_toLowerCase. exact Hc.
  - intros H. exists (JsString.trim q1), (JsString.trim q2).
    split; [apply surrounded_trim|split; [apply surrounded_trim|]].
    apply same_ignoring_case_toLowerCase. exact H.
Qed.

Lemma same_normalised_query_shares_entry (env1 env2 : Env) (q1 q2 : string)
    (w w1 w2 : World) (resp : JsVal) :
  normalizedQuery q1 = normalizedQuery q2 ->
  JsString.trim q1 <> EmptyString ->
  fst (cacheManager_get "searchResults" [JStr (normalizedQuery q1)] w) = Normal JNull ->
  handleSearchMovies env1 (JStr q1) w = (Normal resp, w1) ->
  Js.truthy (Js.propOpt resp "success") = true ->
  (exists e,
      cache w1 !! CacheManager.generateKey "searchResults" [JStr (normalizedQuery q2)]
      = Some e
      /\ data e = resp)
  /\ (cache w2 = cache w1 ->
      now w2 <= now w1 + 300000 ->
      handleSearchMovies env2 (JStr q2) w2 = (Normal (with_cached resp), w2)).
Proof.
  intros Hn Hq1 Hmiss Hfirst Hok.
  pose proof (normalizedQuery_valid _ _ Hn Hq1) as Hq2.
  rewrite (handleSearchMovies_pipeline _ _ Hq1) in Hfirst.
  destruct (cacheManager_get_frame "searchResults" [JStr (normalizedQuery q1)] w)
    as (v & c1 & pe & Hget & _).
  rewrite Hget in Hmiss. cbn [fst] in Hmiss. injection Hmiss as ->.
  destruct (sendToContentScript_frame env1 (searchMessage q1)
              (mkWorld (now w) c1 (pendingSearch w) (trace w ++ pe)))
    as (r & dt & evs & Hsend & _).
  rewrite (pipeline_run _ _ _ _ _ _ _ _ _ _ Hget Hsend) in Hfirst.
  cbn [is_null negb] in Hfirst.
  destruct (Js.prop r "success") as [s|] eqn:Hs; [|discriminate].
  destruct (Js.truthy s) eqn:Ht.
  - injection Hfirst as <- <-. cbn [now cache].
    assert (He : CacheManager.set (now w + dt) "searchResults" r
                   [JStr (normalizedQuery q1)] c1
                 !! CacheManager.generateKey "searchResults" [JStr (normalizedQuery q2)]
                 = Some (mkEntry r (ExpNumber (now w + dt + 300000)))).
    { rewrite <- Hn. unfold CacheManager.set. apply lookup_insert_eq. }
    split; [eexists; split; [exact He|reflexivity]|].
    intros Hcache Hnow.
    rewrite <- Hcache in He.
    assert (Hr : r <> JNull) by (intros ->; discriminate).
    apply (handleSearchMovies_hit env2 q2 w2 _ Hq2 He); [|exact Hr].
    unfold CacheManager.expired. cbn [expiresAt].
    destruct (Z.ltb_spec (now w + dt + 300000) (now w2)); [lia|reflexivity].
  - injection Hfirst as <- <-.
    rewrite (propOpt_prop _ _ _ Hs), Ht in Hok. discriminate.
Qed.

(** C5. Two queries that differ only in surrounding whitespace and in
    letter case, such as [Dune] and [  dune  ], are looked up and stored
    under the same [searchResults] key. Hence, when a search for the
    first misses the cache and the agent answers with success, that
    answer is stored under the key of the second, and a search for the
    second made while the entry is live (no later than five minutes
    after the store) returns the first answer, marked [cached], and
    leaves the world untouched: no agent call is made. *)
Theorem equivalent_queries_share_entry (env1 env2 : Env) (q1 q2 : string)
    (w w1 w2 : World) (resp : JsVal) :
  equivalent_queries q1 q2 ->
  CacheManager.generateKey "searchResults" [JStr (normalizedQuery q1)]
  = CacheManager.generateKey "searchResults" [JStr (normalizedQuery q2)]
  /\ (JsString.trim q1 <> EmptyString ->
      fst (cacheManager_get "searchResults" [JStr (normalizedQuery q1)] w) = Normal JNull ->
      handleSearchMovies env1 (JStr q1) w = (Normal resp, w1) ->
      Js.truthy (Js.propOpt resp "success") = true ->
      (exists e,
          cache w1 !! CacheManager.generateKey "searchResults" [JStr (normalizedQuery q2)]
          = Some e
          /\ data e = resp)
      /\ (cache w2 = cache w1 ->
          now w2 <= now w1 + 300000 ->
          handleSearchMovies env2 (JStr q2) w2 = (Normal (with_cached resp), w2))).
Proof.
  intros Hn. apply equivalent_queries_normalizedQuery in Hn.
  split; [rewrite Hn; reflexivity|].
  exact (same_normalised_query_shares_entry env1 env2 q1 q2 w w1 w2 resp Hn).
Qed.

(** ** A located agent *)

Lemma sendToContentScript_located env tab page message w :
  agent_runs_in env tab page ->
  sendToContentScript env message w
  = (Normal (Agent.onMessage page message),
     mkWorld (now w + elapsed env TabsQuery
                    + elapsed env (TabsSendMessage (tab_id tab) ping)
                    + elapsed env (TabsSendMessage (tab_id tab) message))
             (cache w) (pendingSearch w)
             (((trace w ++ [TabsQuery]) ++ [TabsSendMessage (tab_id tab) ping])
                ++ [TabsSendMessage (tab_id tab) message])).
Proof.
  intros [Hfind Hagent]. run. rewrite Hfind. run.
  fold ping. rewrite !Hagent. reflexivity.
Qed.

Example search_endpoint_Dune : search_endpoint " Dune " = "/api/search?q=dune&page=1".
Proof. vm_compute. reflexivity. Qed.

Lemma agent_search_dune page q :
  fetch page (search_endpoint q) = FetchResponse 200 (Normal dune_upstream) ->
  Agent.onMessage page (searchMessage q) = dune_envelope (search_endpoint q).
Proof.
  intros Hfetch. unfold searchMessage, Agent.onMessage.
  change (Js.propOpt _ "type") with (JStr "SEARCH").
  change (Js.is_text (JStr "SEARCH") "PING") with false.
  change (Js.is_text (JStr "SEARCH") "CHECK_AUTH") with false.
  change (Js.is_text (JStr "SEARCH") "SEARCH") with true.
  cbv iota.
  unfold Agent.search, Agent.searchViaAPI.
  change (Js.propOpt _ "query") with (JStr (normalizedQuery q)).
  change (Js.or (Js.propOpt _ "page") (JNum 1)) with (JNum 1).
  fold (search_endpoint q). rewrite Hfetch.
  generalize (search_endpoint q). intros endpoint.
  vm_compute. reflexivity.
Qed.

(** [id], [slug] and [url] of a normalised item all come from the item's
    upstream [slug]. *)
Lemma normalizeMovieData_slug item slug :
  Js.prop item "slug" = Some slug ->
  exists normalized,
    Agent.normalizeMovieData item = Normal normalized
    /\ Js.prop normalized "id" = Some slug
    /\ Js.prop normalized "slug" = Some slug
    /\ Js.prop normalized "url" = Some (JStr ("/content/" ++ Js.toString slug)).
Proof.
  intros H. unfold Agent.normalizeMovieData. rewrite H.
  eexists. split; [reflexivity|]. repeat split; reflexivity.
Qed.

(** C7. When the located agent's search request for the normalised query
    is answered upstream with the Dune page, the search handler (on a
    cache miss) returns a success envelope whose [results] hold exactly
    one item, with [id] and [slug] "dune-2021", [type] "movie" and [url]
    "/content/dune-2021", and whose [pagination.totalPages] is 3. In
    general the [id], [slug] and [url] of a normalised item are all taken
    from the upstream [slug]. *)
Theorem dune_search_is_normalised (env : Env) (tab : Tab) (page : Page)
    (q : string) (w : World) :
  JsString.trim q <> EmptyString ->
  fst (cacheManager_get "searchResults" [JStr (normalizedQuery q)] w) = Normal JNull ->
  agent_runs_in env tab page ->
  fetch page (search_endpoint q) = FetchResponse 200 (Normal dune_upstream) ->
  (exists (w' : World) (item pagination : JsVal),
      handleSearchMovies env (JStr q) w = (Normal (dune_envelope (search_endpoint q)), w')
      /\ Js.prop (dune_envelope (search_endpoint q)) "success" = Some (JBool true)
      /\ Js.prop (dune_envelope (search_endpoint q)) "results" = Some (JArr [item])
      /\ Js.prop item "id" = Some (JStr "dune-2021")
      /\ Js.prop item "slug" = Some (JStr "dune-2021")
      /\ Js.prop item "type" = Some (JStr "movie")
      /\ Js.prop item "url" = Some (JStr "/content/dune-2021")
      /\ Js.prop (dune_envelope (search_endpoint q)) "pagination" = Some pagination
      /\ Js.prop pagination "totalPages" = Some (JNum 3))
  /\ (forall upstream slug : JsVal,
        Js.prop upstream "slug" = Some slug ->
        exists normalized,
          Agent.normalizeMovieData upstream = Normal normalized
          /\ Js.prop normalized "id" = Some slug
          /\ Js.prop normalized "slug" = Some slug
          /\ Js.prop normalized "url" = Some (JStr ("/content/" ++ Js.toString slug))).
Proof.
  intros Hq Hmiss Hagent Hfetch. split; [|apply normalizeMovieData_slug].
  destruct (cacheManager_get_frame "searchResults" [JStr (normalizedQuery q)] w)
    as (v & c1 & pe & Hget & _).
  rewrite Hget in Hmiss. cbn [fst] in Hmiss. injection Hmiss as ->.
  pose proof (sendToContentScript_located env tab page (searchMessage q)
                (mkWorld (now w) c1 (pendingSearch w) (trace w ++ pe)) Hagent) as Hsend.
  rewrite (agent_search_dune _ _ Hfetch) in Hsend.
  rewrite (handleSearchMovies_pipeline _ _ Hq).
  rewrite (pipeline_run _ _ _ _ _ _ _ _ _ _ Hget Hsend).
  eexists _, dune_item, _. split; [reflexivity|].
  repeat split; reflexivity.
Qed.

Example dune_search_run :
  exists w',
    handleSearchMovies (agent_env dune_page) (JStr "Dune") (fresh_world 1000)
    = (Normal (dune_envelope "/api/search?q=dune&page=1"), w')
    /\ now w' = 1075
    /\ cache w' !! "searchResults:dune"
       = Some (mkEntry (dune_envelope "/api/search?q=dune&page=1") (ExpNumber 301075)).
Proof. eexists. split; [vm_compute; reflexivity|]. split; vm_compute; reflexivity. Qed.

Lemma dune_search_is_normalised_witness :
  exists (w' : World) (item pagination : JsVal),
    handleSearchMovies (agent_env dune_page) (JStr "Dune") (fresh_world 1000)
    = (Normal (dune_envelope (search_endpoint "Dune")), w')
    /\ Js.prop (dune_envelope (search_endpoint "Dune")) "success" = Some (JBool true)
    /\ Js.prop (dune_envelope (search_endpoint "Dune")) "results" = Some (JArr [item])
    /\ Js.prop item "id" = Some (JStr "dune-2021")
    /\ Js.prop item "slug" = Some (JStr "dune-2021")
    /\ Js.prop item "type" = Some (JStr "movie")
    /\ Js.prop item "url" = Some (JStr "/content/dune-2021")
    /\ Js.prop (dune_envelope (search_endpoint "Dune")) "pagination" = Some pagination
    /\ Js.prop pagination "totalPages" = Some (JNum 3).
Proof.
  refine (proj1 (dune_search_is_normalised (agent_env dune_page) moctale_tab dune_page
                   "Dune" (fresh_world 1000) _ _ _ _)).
  - vm_compute. discriminate.
  - vm_compute. reflexivity.
  - split; [vm_compute; reflexivity|intros message; reflexivity].
  - vm_compute. reflexivity.
Defined.

Lemma equivalent_queries_share_entry_witness :
  equivalent_queries "Dune" "  dune  "
  /\ CacheManager.generateKey "searchResults" [JStr (normalizedQuery "Dune")]
     = CacheManager.generateKey "searchResults" [JStr (normalizedQuery "  dune  ")]
  /\ handleSearchMovies (agent_env dune_page) (JStr "Dune") (fresh_world 1000)
     = (Normal (dune_envelope "/api/search?q=dune&page=1"), dune_cached_world)
  /\ (exists e,
         cache dune_cached_world
         !! CacheManager.generateKey "searchResults" [JStr (normalizedQuery "  dune  ")]
         = Some e
         /\ data e = dune_envelope "/api/search?q=dune&page=1")
  /\ handleSearchMovies no_tab_env (JStr "  dune  ") (later 60000 dune_cached_world)
     = (Normal (with_cached (dune_envelope "/api/search?q=dune&page=1")),
        later 60000 dune_cached_world).
Proof.
  assert (Heq : equivalent_queries "Dune" "  dune  ").
  { exists "Dune", "dune". split; [|split; [|reflexivity]].
    - exists EmptyString, EmptyString. repeat split.
    - exists "  ", "  ". repeat split. }
  assert (Hfirst : handleSearchMovies (agent_env dune_page) (JStr "Dune") (fresh_world 1000)
                   = (Normal (dune_envelope "/api/search?q=dune&page=1"), dune_cached_world))
    by (vm_compute; reflexivity).
  destruct (equivalent_queries_share_entry (agent_env dune_page) no_tab_env
              "Dune" "  dune  " (fresh_world 1000) dune_cached_world
              (later 60000 dune_cached_world)
              (dune_envelope "/api/search?q=dune&page=1") Heq) as [Hkey Hrun].
  destruct Hrun as [Hstored Hserved];
    [vm_compute; discriminate|vm_compute; reflexivity|exact Hfirst|reflexivity|].
  split; [exact Heq|split; [exact Hkey|split; [exact Hfirst|split; [exact Hstored|]]]].
  apply Hserved; [reflexivity|vm_compute; discriminate].
Defined.

(** ** Auth detection *)

Lemma checkAuth_shape (page : Page) :
  exists rest,
    Agent.checkAuth page = JObj (("success", JBool true) :: rest)
    /\ (Agent.checkAuthFromCookie page = None ->
        Agent.checkAuthFromDOM page = None ->
        Agent.checkAuthFromAPI page = None ->
        Js.assoc "isLoggedIn" rest = Some (JBool false)).
Proof.
  unfold Agent.checkAuth.
  destruct (Agent.checkAuthFromCookie page) as [cookieResult|] eqn:C.
  { unfold Agent.checkAuthFromCookie in C.
    destruct (existsb Agent.cookie_is_auth _); [|discriminate].
    injection C as <-. eexists. split; [reflexivity|discriminate]. }
  destruct (Agent.checkAuthFromDOM page) as [domResult|] eqn:D.
  { unfold Agent.checkAuthFromDOM, Agent.authSelectors in D.
    cbn [Agent.first_indicator] in D.
    repeat (destruct (querySelector page _);
            [injection D as <-; eexists; split; [reflexivity|discriminate]|]).
    destruct (_ || _); [|discriminate].
    injection D as <-. eexists. split; [reflexivity|discriminate]. }
  destruct (Agent.checkAuthFromAPI page) as [apiResult|] eqn:A.
  { unfold Agent.checkAuthFromAPI in A.
    destruct (fetch page "/api/me") as [|status json]; [discriminate|].
    destruct (Agent.ok status).
    - destruct json as [data|]; [|discriminate].
      destruct (Js.prop data "username"), (Js.prop data "name"), (Js.prop data "user");
        try discriminate.
      injection A as <-. eexists. split; [reflexivity|discriminate].
    - destruct (_ || _); [|discriminate].
      injection A as <-. eexists. split; [reflexivity|discriminate]. }
  eexists. split; [reflexivity|]. reflexivity.
Qed.

Lemma checkAuth_reply_success (page : Page) :
  Js.prop (Agent.onMessage page checkAuthMessage) "success" = Some (JBool true).
Proof.
  unfold Agent.onMessage, checkAuthMessage.
  change (Js.propOpt _ "type") with (JStr "CHECK_AUTH").
  change (Js.is_text (JStr "CHECK_AUTH") "PING") with false.
  change (Js.is_text (JStr "CHECK_AUTH") "CHECK_AUTH") with true.
  cbv iota.
  destruct (checkAuth_shape page) as (rest & -> & _).
  reflexivity.
Qed.

(** C9. The agent's auth check yields [success = true] on every path, and
    so does the reply the coordinator receives for [CHECK_AUTH]; when no
    probe finds an indicator it reports [isLoggedIn = false]. Hence a
    session check that misses the cache and reaches the agent always
    stores the reply under the session key with expiry one minute after
    the store, whichever login state the reply carries. *)
Theorem auth_check_never_fails (page : Page) :
  Js.prop (Agent.checkAuth page) "success" = Some (JBool true)
  /\ Js.prop (Agent.onMessage page checkAuthMessage) "success" = Some (JBool true)
  /\ (Agent.checkAuthFromCookie page = None ->
      Agent.checkAuthFromDOM page = None ->
      Agent.checkAuthFromAPI page = None ->
      Js.prop (Agent.checkAuth page) "isLoggedIn" = Some (JBool false))
  /\ (forall (env : Env) (tab : Tab) (w : World),
        fst (cacheManager_get "sessionState" [JStr "status"] w) = Normal JNull ->
        agent_runs_in env tab page ->
        exists w' : World,
          handleCheckSession env w = (Normal (Agent.onMessage page checkAuthMessage), w')
          /\ cache w' !! CacheManager.generateKey "sessionState" [JStr "status"]
             = Some (mkEntry (Agent.onMessage page checkAuthMessage)
                             (ExpNumber (now w' + 60000)))).
Proof.
  split; [|split; [apply checkAuth_reply_success|split]].
  - destruct (checkAuth_shape page) as (rest & -> & _). reflexivity.
  - intros C D A. destruct (checkAuth_shape page) as (rest & -> & H).
    cbn. rewrite (H C D A). reflexivity.
  - intros env tab w Hmiss Hagent.
    destruct (cacheManager_get_frame "sessionState" [JStr "status"] w)
      as (v & c1 & pe & Hget & _).
    rewrite Hget in Hmiss. cbn [fst] in Hmiss. injection Hmiss as ->.
    pose proof (sendToContentScript_located env tab page checkAuthMessage
                  (mkWorld (now w) c1 (pendingSearch w) (trace w ++ pe)) Hagent) as Hsend.
    rewrite handleCheckSession_pipeline.
    rewrite (pipeline_run _ _ _ _ _ _ _ _ _ _ Hget Hsend).
    cbn [is_null negb]. rewrite checkAuth_reply_success. cbn [Js.truthy].
    eexists. split; [reflexivity|].
    cbn [cache now]. unfold CacheManager.set. apply lookup_insert_eq.
Qed.

Lemma auth_check_never_fails_witness :
  Js.prop (Agent.checkAuth dune_page) "isLoggedIn" = Some (JBool false)
  /\ exists w' : World,
       handleCheckSession (agent_env dune_page) (fresh_world 1000)
       = (Normal (Agent.onMessage dune_page checkAuthMessage), w')
       /\ cache w' !! CacheManager.generateKey "sessionState" [JStr "status"]
          = Some (mkEntry (Agent.onMessage dune_page checkAuthMessage)
                          (ExpNumber (now w' + 60000))).
Proof.
  split.
  - apply (proj1 (proj2 (proj2 (auth_check_never_fails dune_page)))); reflexivity.
  - apply (proj2 (proj2 (proj2 (auth_check_never_fails dune_page)))
             (agent_env dune_page) moctale_tab (fresh_world 1000)).
    + vm_compute. reflexivity.
    + split; [vm_compute; reflexivity|intros message; reflexivity].
Defined.

(** A page showing a logged-in marker and a logged-out page are cached
    alike. *)
Example logged_out_reply :
  Agent.onMessage dune_page checkAuthMessage
  = JObj [("success", JBool true); ("isLoggedIn", JBool false); ("username", JNull);
          ("method", JStr "cookie");
          ("message", JStr "No auth_token cookie found. Please log in.")].
Proof. vm_compute. reflexivity. Qed.

(** ** The pending-search slot *)

Lemma handleGetPendingSearch_run (env : Env) (w : World) :
  handleGetPendingSearch env w
  = (Normal match pendingSearch w with
            | Some pending =>
                if now w + elapsed env StorageGet - timestamp pending <? five_minutes
                then JObj [("success", JBool true); ("query", JStr (query pending))]
                else absent
            | None => absent
            end,
     mkWorld (now w + elapsed env StorageGet) (cache w) (pendingSearch w)
             (trace w ++ [StorageGet])).
Proof.
  unfold handleGetPendingSearch. run.
  destruct (pendingSearch w) as [pending|]; [|reflexivity].
  run. destruct (_ <? _); reflexivity.
Qed.

Lemma read_repeatedly_absent (envs : list Env) (w : World) :
  pendingSearch w = None ->
  Forall (fun r => r = Normal absent) (fst (read_repeatedly envs w))
  /\ pendingSearch (snd (read_repeatedly envs w)) = None.
Proof.
  revert w. induction envs as [|env rest IH]; intros w Hw; cbn [read_repeatedly].
  - split; [constructor|exact Hw].
  - rewrite handleGetPendingSearch_run, Hw.
    match goal with |- context [read_repeatedly rest ?w1] =>
      specialize (IH w1 eq_refl); destruct (read_repeatedly rest w1) as [rs w2] end.
    cbn [fst snd] in *. destruct IH as [IH1 IH2].
    split; [constructor; [reflexivity|exact IH1]|exact IH2].
Qed.

(** C8. Let [t] be the clock when the read of the slot resumes. The read
    never changes the slot. If the slot holds a record written at [t0]
    with query [q], the read returns [q] when [t - t0] is below five
    minutes and absent when [t - t0] is five minutes or more; an empty
    slot reads as absent. Clearing empties the slot, after which every
    read, at any later time, returns absent. *)
Theorem pending_search_is_fresh_for_five_minutes (env : Env) (w : World) :
  let t := now w + elapsed env StorageGet in
  pendingSearch (snd (handleGetPendingSearch env w)) = pendingSearch w
  /\ (forall (q : string) (t0 : Z),
        pendingSearch w = Some (mkPending q t0) ->
        t - t0 < 5 * 60 * 1000 ->
        fst (handleGetPendingSearch env w)
        = Normal (JObj [("success", JBool true); ("query", JStr q)]))
  /\ (forall (q : string) (t0 : Z),
        pendingSearch w = Some (mkPending q t0) ->
        5 * 60 * 1000 <= t - t0 ->
        fst (handleGetPendingSearch env w) = Normal absent)
  /\ (pendingSearch w = None ->
      fst (handleGetPendingSearch env w) = Normal absent)
  /\ pendingSearch (snd (handleClearPendingSearch env w)) = None
  /\ (forall envs : list Env,
        Forall (fun r => r = Normal absent)
               (fst (read_repeatedly envs (snd (handleClearPendingSearch env w))))).
Proof.
  intros t. rewrite handleGetPendingSearch_run. cbn [fst snd pendingSearch].
  split; [reflexivity|].
  split; [|split; [|split; [|split]]].
  - intros q t0 -> Ht. cbn [timestamp query]. fold t.
    destruct (Z.ltb_spec (t - t0) five_minutes) as [_|H]; [reflexivity|].
    unfold five_minutes in H. lia.
  - intros q t0 -> Ht. cbn [timestamp query]. fold t.
    destruct (Z.ltb_spec (t - t0) five_minutes) as [H|_]; [|reflexivity].
    unfold five_minutes in H. lia.
  - intros ->. reflexivity.
  - reflexivity.
  - intros envs. apply read_repeatedly_absent. reflexivity.
Qed.

Lemma pending_search_is_fresh_for_five_minutes_witness :
  fst (handleGetPendingSearch alice_env pending_world)
  = Normal (JObj [("success", JBool true); ("query", JStr "dune")])
  /\ fst (handleGetPendingSearch alice_env (later 300000 pending_world)) = Normal absent
  /\ fst (handleGetPendingSearch alice_env (fresh_world 0)) = Normal absent.
Proof.
  split; [|split].
  - apply (proj1 (proj2 (pending_search_is_fresh_for_five_minutes alice_env pending_world))
             "dune" 1000); [reflexivity|vm_compute; reflexivity].
  - apply (proj1 (proj2 (proj2 (pending_search_is_fresh_for_five_minutes alice_env
                                  (later 300000 pending_world)))) "dune" 1000);
      [reflexivity|vm_compute; discriminate].
  - apply (proj1 (proj2 (proj2 (proj2 (pending_search_is_fresh_for_five_minutes alice_env
                                         (fresh_world 0)))))).
    reflexivity.
Defined.

(** ** The context-menu trigger *)

Lemma all_whitespace_nonempty_trim text :
  JsString.all_whitespace text = false ->
  text <> EmptyString /\ JsString.trim text <> EmptyString.
Proof.
  intros H. split.
  - intros ->. discriminate.
  - intros Ht. apply trim_empty_iff in Ht. congruence.
Qed.

(** C10. A click on the extension's menu entry with a selection that is
    not blank stores the record whose query is the trimmed selection and
    whose timestamp is the clock at the write, then opens the popup
    window; with a blank selection, or none, nothing is stored and no
    window is opened. *)
Theorem context_menu_stores_trimmed_selection (env : Env) (text : string) (w : World) :
  let record := mkPending (JsString.trim text) (now w) in
  (JsString.all_whitespace text = false ->
   onClicked env CONTEXT_MENU_ID (Some text) w
   = (Normal tt,
      mkWorld (now w + elapsed env (StorageSet record)) (cache w) (Some record)
              (trace w ++ [StorageSet record; WindowsCreate "popup/popup.html"])))
  /\ (JsString.all_whitespace text = true ->
      onClicked env CONTEXT_MENU_ID (Some text) w = (Normal tt, w))
  /\ onClicked env CONTEXT_MENU_ID None w = (Normal tt, w).
Proof.
  intros record. split; [|split; [|reflexivity]].
  - intros H. destruct (all_whitespace_nonempty_trim _ H) as [Htext Htrim].
    unfold onClicked. rewrite String.eqb_refl.
    destruct text as [|c text]; [contradiction Htext; reflexivity|].
    cbn [Js.truthy andb]. unfold record.
    destruct (JsString.trim (String c text)) as [|c' trimmed];
      [contradiction Htrim; reflexivity|].
    run. rewrite <- app_assoc. reflexivity.
  - intros H. apply trim_empty_iff in H.
    unfold onClicked. rewrite String.eqb_refl.
    destruct text as [|c text]; [reflexivity|].
    cbn [Js.truthy andb]. rewrite H. reflexivity.
Qed.

Lemma context_menu_stores_trimmed_selection_witness :
  onClicked alice_env CONTEXT_MENU_ID (Some "  Dune ") (fresh_world 1000)
  = (Normal tt,
     mkWorld 1025 ∅ (Some (mkPending "Dune" 1000))
             [StorageSet (mkPending "Dune" 1000); WindowsCreate "popup/popup.html"])
  /\ onClicked alice_env CONTEXT_MENU_ID (Some "   ") (fresh_world 1000)
     = (Normal tt, fresh_world 1000).
Proof.
  split.
  - apply (proj1 (context_menu_stores_trimmed_selection alice_env "  Dune "
                    (fresh_world 1000))).
    reflexivity.
  - apply (proj1 (proj2 (context_menu_stores_trimmed_selection alice_env "   "
                           (fresh_world 1000)))).
    reflexivity.
Defined.

(** A click on another extension's entry is ignored. *)
Lemma other_menu_item_is_ignored env menuItemId selection w :
  String.eqb menuItemId CONTEXT_MENU_ID = false ->
  onClicked env menuItemId selection w = (Normal tt, w).
Proof.
  intros H. unfold onClicked. rewrite H. destruct selection; reflexivity.
Qed.

(* ====================================================================== *)
(** * Further properties *)
(* ====================================================================== *)

(** ** More on the cache store *)

Lemma startsWith_iff (p s : string) :
  JsString.startsWith p s = true <-> exists r, s = p ++ r.
Proof.
  revert s. induction p as [|a p IH]; intros s; cbn.
  - split; [intros _; exists s; reflexivity|reflexivity].
  - destruct s as [|b s].
    + split; [discriminate|intros [r H]; discriminate].
    + destruct (Ascii.eqb_spec a b) as [->|Hne].
      * rewrite IH. split; intros [r H]; exists r; [rewrite H; reflexivity|].
        injection H as H. exact H.
      * split; [discriminate|]. intros [r H]. injection H as H _. congruence.
Qed.

Lemma string_app_assoc (a b c : string) : (a ++ b) ++ c = a ++ (b ++ c).
Proof.
  induction a as [|x a IH]; [reflexivity|].
  change (String x ((a ++ b) ++ c) = String x (a ++ (b ++ c))).
  f_equal. exact IH.
Qed.

(** Keys of one colon-free category never carry the prefix of another. *)
Lemma category_prefix_disjoint (a b rest : string) :
  colon_free a = true -> colon_free b = true -> a <> b ->
  JsString.startsWith (a ++ ":") (b ++ String ":" rest) = false.
Proof.
  intros Ha Hb Hne.
  destruct (JsString.startsWith (a ++ ":") (b ++ String ":" rest)) eqn:E; [|reflexivity].
  apply startsWith_iff in E as [r E].
  rewrite string_app_assoc in E. cbn in E.
  symmetry in E. destruct (colon_split _ _ _ _ Ha Hb E) as [-> _].
  contradiction Hne; reflexivity.
Qed.

(** X1. [clearType type] keeps exactly the entries whose key does not
    begin with [type:]. Afterwards every lookup in that category, for any
    arguments and at any time, is a miss that leaves the cache alone,
    while every lookup in a different colon-free category answers as it
    did before. *)
Theorem clearType_empties_one_category (type : string) (cache : gmap string CacheEntry) :
  (forall (k : string) (e : CacheEntry),
      CacheManager.clearType type cache !! k = Some e
      <-> cache !! k = Some e /\ JsString.startsWith (type ++ ":") k = false)
  /\ (forall (K : list JsVal) (t : Z),
        CacheManager.get t type K (CacheManager.clearType type cache)
        = (JNull, CacheManager.clearType type cache))
  /\ (forall (other : string) (K : list JsVal) (t : Z),
        colon_free type = true -> colon_free other = true -> other <> type ->
        fst (CacheManager.get t other K (CacheManager.clearType type cache))
        = fst (CacheManager.get t other K cache)).
Proof.
  assert (Hlook : forall k e,
             CacheManager.clearType type cache !! k = Some e
             <-> cache !! k = Some e /\ JsString.startsWith (type ++ ":") k = false).
  { intros k e. unfold CacheManager.clearType.
    rewrite map_lookup_filter_Some. reflexivity. }
  split; [exact Hlook|split].
  - intros K t. unfold CacheManager.get.
    destruct (CacheManager.clearType type cache !! CacheManager.generateKey type K)
      as [e|] eqn:E; [|reflexivity].
    apply Hlook in E as [_ E].
    assert (JsString.startsWith (type ++ ":") (CacheManager.generateKey type K) = true) as H.
    { apply startsWith_iff. exists (Js.join ":" K).
      unfold CacheManager.generateKey. rewrite string_app_assoc. reflexivity. }
    congruence.
  - intros other K t Ht Ho Hne. unfold CacheManager.get.
    set (key := CacheManager.generateKey other K).
    assert (Hkey : JsString.startsWith (type ++ ":") key = false).
    { unfold key, CacheManager.generateKey.
      apply (category_prefix_disjoint type other (Js.join ":" K)); auto. }
    destruct (cache !! key) as [e|] eqn:E.
    + assert (CacheManager.clearType type cache !! key = Some e) as ->
        by (apply Hlook; auto).
      destruct (CacheManager.expired t e); reflexivity.
    + destruct (CacheManager.clearType type cache !! key) as [e|] eqn:E'; [|reflexivity].
      apply Hlook in E' as [E' _]. congruence.
Qed.

Lemma clearType_empties_one_category_witness :
  fst (CacheManager.get 2000 "sessionState" [JStr "status"]
         (CacheManager.clearType "searchResults" (cache alice_cached_world)))
  = fst (CacheManager.get 2000 "sessionState" [JStr "status"] (cache alice_cached_world)).
Proof.
  apply (proj2 (proj2 (clearType_empties_one_category "searchResults"
                         (cache alice_cached_world))) "sessionState" [JStr "status"] 2000);
    [reflexivity|reflexivity|discriminate].
Defined.

(** X2. A second store under the same category and arguments replaces the
    first, value and expiry alike; a store under one key never changes
    what a lookup under a different key returns. *)
Theorem set_overwrites_own_key_only (type : string) (K : list JsVal) (v1 v2 : JsVal)
    (t1 t2 : Z) (cache : gmap string CacheEntry) :
  CacheManager.set t2 type v2 K (CacheManager.set t1 type v1 K cache)
  = CacheManager.set t2 type v2 K cache
  /\ (forall (type' : string) (K' : list JsVal) (t : Z),
        CacheManager.generateKey type' K' <> CacheManager.generateKey type K ->
        fst (CacheManager.get t type' K' (CacheManager.set t1 type v1 K cache))
        = fst (CacheManager.get t type' K' cache)).
Proof.
  split.
  - unfold CacheManager.set. apply insert_insert_eq.
  - intros type' K' t Hne. unfold CacheManager.get, CacheManager.set.
    rewrite lookup_insert_ne by congruence.
    destruct (cache !! CacheManager.generateKey type' K') as [e|]; [|reflexivity].
    destruct (CacheManager.expired t e); reflexivity.
Qed.

Lemma set_overwrites_own_key_only_witness :
  fst (CacheManager.get 5 "movieDetails" [JStr "dune-2021"]
         (CacheManager.set 1 "searchResults" JNull [JStr "dune"] (cache dune_cached_world)))
  = fst (CacheManager.get 5 "movieDetails" [JStr "dune-2021"] (cache dune_cached_world)).
Proof.
  apply (proj2 (set_overwrites_own_key_only "searchResults" [JStr "dune"] JNull JNull 1 1
                  (cache dune_cached_world)) "movieDetails" [JStr "dune-2021"] 5).
  vm_compute. discriminate.
Defined.

Lemma get_before_expiry type K v cache t0 ms t :
  CacheManager.ttl type = TtlNumber ms -> t <= t0 + ms ->
  CacheManager.get t type K (CacheManager.set t0 type v K cache)
  = (v, CacheManager.set t0 type v K cache).
Proof.
  intros Httl Ht. unfold CacheManager.get, CacheManager.set, CacheManager.expiry.
  rewrite Httl, lookup_insert_eq. unfold CacheManager.expired. cbn [expiresAt data].
  destruct (Z.ltb_spec (t0 + ms) t); [lia|reflexivity].
Qed.

Lemma get_after_expiry type K v cache t0 ms t :
  CacheManager.ttl type = TtlNumber ms -> t0 + ms < t ->
  fst (CacheManager.get t type K (CacheManager.set t0 type v K cache)) = JNull.
Proof.
  intros Httl Ht. unfold CacheManager.get, CacheManager.set, CacheManager.expiry.
  rewrite Httl, lookup_insert_eq. unfold CacheManager.expired. cbn [expiresAt data].
  destruct (Z.ltb_spec (t0 + ms) t); [reflexivity|lia].
Qed.

(** X3. Lookups do not renew an entry. However many times a stored value
    is read before its expiry, each read returns it and leaves the cache
    exactly as the store left it; the first read after [t0 + ttl] is
    still a miss. *)
Theorem reads_do_not_extend_ttl (times : list Z) (type : string) (K : list JsVal)
    (v : JsVal) (cache : gmap string CacheEntry) (t0 ms t : Z) :
  CacheManager.ttl type = TtlNumber ms ->
  Forall (fun r => r <= t0 + ms) times ->
  t0 + ms < t ->
  get_each times type K (CacheManager.set t0 type v K cache)
  = (map (fun _ => v) times, CacheManager.set t0 type v K cache)
  /\ fst (CacheManager.get t type K
            (snd (get_each times type K (CacheManager.set t0 type v K cache))))
     = JNull.
Proof.
  intros Httl H Ht.
  assert (Hall : get_each times type K (CacheManager.set t0 type v K cache)
                 = (map (fun _ => v) times, CacheManager.set t0 type v K cache)).
  { induction H as [|r rest Hr _ IH]; cbn [get_each map]; [reflexivity|].
    rewrite (get_before_expiry _ _ _ _ _ _ _ Httl Hr), IH. reflexivity. }
  split; [exact Hall|].
  rewrite Hall. cbn [snd]. apply (get_after_expiry _ _ _ _ _ _ _ Httl Ht).
Qed.

Lemma reads_do_not_extend_ttl_witness :
  get_each [1000; 30000; 61000] "sessionState" [JStr "status"]
    (CacheManager.set 1000 "sessionState" alice_session [JStr "status"] ∅)
  = ([alice_session; alice_session; alice_session],
     CacheManager.set 1000 "sessionState" alice_session [JStr "status"] ∅)
  /\ fst (CacheManager.get 61001 "sessionState" [JStr "status"]
            (snd (get_each [1000; 30000; 61000] "sessionState" [JStr "status"]
                    (CacheManager.set 1000 "sessionState" alice_session
                       [JStr "status"] ∅))))
     = JNull.
Proof.
  apply (reads_do_not_extend_ttl [1000; 30000; 61000] "sessionState" [JStr "status"]
           alice_session ∅ 1000 60000 61001).
  - reflexivity.
  - repeat constructor; vm_compute; discriminate.
  - reflexivity.
Defined.

(** ** More on the locator *)

Lemma is_moctale_tab_iff (tab : Tab) :
  is_moctale_tab tab = true
  <-> exists origin rest,
        In origin MOCTALE_ORIGINS /\ tab_url tab = Some (origin ++ rest).
Proof.
  unfold is_moctale_tab. split.
  - destruct (tab_url tab) as [url|]; [|discriminate].
    destruct url as [|c url]; [discriminate|].
    intros H. apply existsb_exists in H as (origin & Hin & H).
    apply startsWith_iff in H as [rest H]. exists origin, rest. rewrite H. auto.
  - intros (origin & rest & Hin & ->).
    assert (Hsw : existsb (fun o => JsString.startsWith o (origin ++ rest)) MOCTALE_ORIGINS
                  = true).
    { apply existsb_exists. exists origin. split; [exact Hin|].
      apply startsWith_iff. exists rest. reflexivity. }
    destruct (origin ++ rest) as [|c url] eqn:E; [|exact Hsw].
    destruct Hin as [<-|[<-|[]]]; discriminate.
Qed.

Lemma find_first {A} (f : A -> bool) (l : list A) (x : A) :
  find f l = Some x ->
  exists before after,
    l = (before ++ x :: after)%list /\ f x = true /\ Forall (fun y => f y = false) before.
Proof.
  induction l as [|a l IH]; cbn; [discriminate|].
  destruct (f a) eqn:E.
  - intros [= <-]. exists [], l. repeat split; [exact E|constructor].
  - intros H. destruct (IH H) as (before & after & -> & Hx & Hb).
    exists (a :: before), after. repeat split; [exact Hx|constructor; assumption].
Qed.

(** X4. The locator accepts a tab exactly when its URL is one of the two
    origins followed by any text at all (a prefix test, with no boundary
    after the host). It returns the first accepted tab in the order the
    browser lists them, and none only when no listed tab is accepted; it
    asks the browser once and changes neither the cache nor the slot. *)
Theorem findMoctaleTab_first_prefix_match (env : Env) (w : World) :
  exists found : option Tab,
    findMoctaleTab env w
    = (Normal found,
       mkWorld (now w + elapsed env TabsQuery) (cache w) (pendingSearch w)
               (trace w ++ [TabsQuery]))
    /\ (forall tab, found = Some tab ->
          exists before after origin rest,
            tabs env = (before ++ tab :: after)%list
            /\ In origin MOCTALE_ORIGINS
            /\ tab_url tab = Some (origin ++ rest)
            /\ Forall (fun other => is_moctale_tab other = false) before)
    /\ (found = None ->
        forall tab origin rest,
          In tab (tabs env) -> In origin MOCTALE_ORIGINS ->
          tab_url tab <> Some (origin ++ rest)).
Proof.
  exists (find is_moctale_tab (tabs env)). split; [reflexivity|split].
  - intros tab H. destruct (find_first _ _ _ H) as (before & after & Hl & Hx & Hb).
    apply is_moctale_tab_iff in Hx as (origin & rest & Hin & Hurl).
    exists before, after, origin, rest. auto.
  - intros H tab origin rest Hin Ho Hurl.
    pose proof (find_none _ _ H tab Hin) as Hf.
    assert (is_moctale_tab tab = true) by (apply is_moctale_tab_iff; eauto).
    congruence.
Qed.

Lemma findMoctaleTab_first_prefix_match_witness :
  exists before after origin rest,
    tabs injectable_env = (before ++ moctale_tab :: after)%list
    /\ In origin MOCTALE_ORIGINS
    /\ tab_url moctale_tab = Some (origin ++ rest)
    /\ Forall (fun other => is_moctale_tab other = false) before.
Proof.
  destruct (findMoctaleTab_first_prefix_match injectable_env (fresh_world 0))
    as (found & Hrun & Hsome & _).
  apply Hsome. injection Hrun as <-. reflexivity.
Defined.

(** X5. The agent is injected exactly when the probe is rejected. A probe
    that is answered decides the outcome alone: true when the answer's
    [pong] is [true], false otherwise, with no injection attempted. After
    a rejected probe the outcome is that of the injection, and the settle
    delay is waited only when the injection succeeded. *)
Theorem injection_only_after_rejected_probe (env : Env) (tabId : Z) (w : World) :
  exists (present : bool) (dt : Z) (evs : list Event),
    ensureContentScriptInjected env tabId w
    = (Normal present,
       mkWorld (now w + dt) (cache w) (pendingSearch w) (trace w ++ evs))
    /\ (In (ExecuteScript tabId) evs <-> sendMessage env tabId ping = None)
    /\ (In (SetTimeout 100) evs
        <-> sendMessage env tabId ping = None /\ executeScript env tabId = true)
    /\ (present = true
        <-> (exists reply, sendMessage env tabId ping = Some reply
                           /\ Js.propOpt reply "pong" = JBool true)
            \/ (sendMessage env tabId ping = None /\ executeScript env tabId = true)).
Proof.
  unfold ensureContentScriptInjected. fold ping. run.
  destruct (sendMessage env tabId ping) as [reply|] eqn:P; run.
  - eexists _, _, [_]. split; [reflexivity|].
    split; [split; [intros [H|[]]; discriminate|discriminate]|].
    split; [split; [intros [H|[]]; discriminate|intros [H _]; discriminate]|].
    split.
    + intros H. left. exists reply. split; [reflexivity|].
      destruct (Js.propOpt reply "pong") as [| |[|]| | | |]; try discriminate. reflexivity.
    + intros [(r & [= <-] & ->)|[H _]]; [reflexivity|discriminate].
  - destruct (executeScript env tabId) eqn:X; run.
    + rewrite <- !app_assoc, <- !Z.add_assoc. eexists _, _, _. split; [reflexivity|].
      cbn [app In]. repeat split; auto.
    + rewrite <- !app_assoc, <- !Z.add_assoc. eexists _, _, _. split; [reflexivity|].
      cbn [app In]. split; [split; auto|].
      split; [split; [intros [H|[H|[]]]; discriminate|intros [_ H]; discriminate]|].
      split; [discriminate|]. intros [(r & H & _)|[_ H]]; discriminate.
Qed.

(** X6. The request travels at most once, and only to the tab the locator
    found, after the probe (and, when the probe was rejected, after a
    successful injection and the settle delay). The round trip records
    one of five sequences of browser calls; without a tab or an agent it
    ends in [NO_MOCTALE_TAB] or [INJECTION_FAILED] and the request is
    never sent; otherwise it ends in the tab's reply, or in
    [COMMUNICATION_ERROR] when the tab rejects the request. *)
Theorem request_sent_once_after_probe (env : Env) (message : JsVal) (w : World) :
  exists (r : JsVal) (dt : Z) (evs : list Event),
    sendToContentScript env message w
    = (Normal r, mkWorld (now w + dt) (cache w) (pendingSearch w) (trace w ++ evs))
    /\ ((find is_moctale_tab (tabs env) = None
         /\ evs = [TabsQuery]
         /\ r = envelope_failure "NO_MOCTALE_TAB"
                  "Please open moctale.in in a browser tab first")
        \/ exists tab,
            find is_moctale_tab (tabs env) = Some tab
            /\ let probe := TabsSendMessage (tab_id tab) ping in
               let injection := ExecuteScript (tab_id tab) in
               let sent := TabsSendMessage (tab_id tab) message in
               ((evs = [TabsQuery; probe] \/ evs = [TabsQuery; probe; injection])
                /\ r = envelope_failure "INJECTION_FAILED"
                         "Failed to connect to Moctale tab")
               \/ ((evs = [TabsQuery; probe; sent]
                    \/ evs = [TabsQuery; probe; injection; SetTimeout 100; sent])
                   /\ r = default (envelope_failure "COMMUNICATION_ERROR"
                                     "Failed to communicate with Moctale tab")
                                  (sendMessage env (tab_id tab) message))).
Proof.
  run.
  destruct (find is_moctale_tab (tabs env)) as [tab|] eqn:F; run.
  2:{ eexists _, _, _. split; [reflexivity|]. left. auto. }
  fold ping.
  destruct (sendMessage env (tab_id tab) ping) as [reply|]; run.
  - destruct (match Js.propOpt reply "pong" with JBool true => true | _ => false end); run.
    + destruct (sendMessage env (tab_id tab) message) as [x|] eqn:S; run;
        rewrite <- !app_assoc, <- !Z.add_assoc; eexists _, _, _;
        (split; [reflexivity|]); right; exists tab; (split; [reflexivity|]);
        right; cbn [app]; rewrite S; auto.
    + rewrite <- !app_assoc, <- !Z.add_assoc. eexists _, _, _.
      split; [reflexivity|]. right. exists tab. split; [reflexivity|].
      left. cbn [app]. auto.
  - destruct (executeScript env (tab_id tab)); run.
    + destruct (sendMessage env (tab_id tab) message) as [x|] eqn:S; run;
        rewrite <- !app_assoc, <- !Z.add_assoc; eexists _, _, _;
        (split; [reflexivity|]); right; exists tab; (split; [reflexivity|]);
        right; cbn [app]; rewrite S; auto.
    + rewrite <- !app_assoc, <- !Z.add_assoc. eexists _, _, _.
      split; [reflexivity|]. right. exists tab. split; [reflexivity|].
      left. cbn [app]. auto.
Qed.

(** X7. Opening the site always reports success and never touches the
    cache or the slot. With a tab already on the site it activates that
    tab and focuses its window and opens nothing; without one it opens
    exactly one tab, on the site root. *)
Theorem openMoctale_focuses_or_opens (env : Env) (w : World) :
  exists (dt : Z) (evs : list Event),
    handleOpenMoctale env w
    = (Normal envelope_success,
       mkWorld (now w + dt) (cache w) (pendingSearch w) (trace w ++ evs))
    /\ match find is_moctale_tab (tabs env) with
       | Some tab =>
           evs = [TabsQuery; TabsUpdate (tab_id tab); WindowsUpdate (tab_windowId tab)]
       | None => evs = [TabsQuery; TabsCreate "https://www.moctale.in/"]
       end.
Proof.
  unfold handleOpenMoctale. run.
  destruct (find is_moctale_tab (tabs env)) as [tab|]; run;
    rewrite <- !app_assoc, <- !Z.add_assoc; eexists _, _; split; reflexivity.
Qed.

(** ** More on the message listener *)

(** X8. A message other than [undefined] and [null] whose [type] is none
    of the seven known types is answered with [UNKNOWN_MESSAGE_TYPE],
    quoting the type as text, and nothing else happens: no handler runs,
    and the cache, the slot and the trace stay as they were. On
    [undefined] or [null] the listener answers nothing at all: reading
    [type] off the message throws before the [try], so [sendResponse] is
    never called, and the world stays as it was. *)
Theorem unknown_message_type_is_refused (env : Env) (message : JsVal) (w : World) :
  (nullish message = true -> onMessage env message w = (None, w))
  /\ (nullish message = false ->
      Forall (fun name => Js.is_text (Js.propOpt message "type") name = false)
        MESSAGE_TYPES ->
      onMessage env message w
      = (Some (envelope_failure "UNKNOWN_MESSAGE_TYPE"
                 ("Unknown message type: " ++ Js.toString (Js.propOpt message "type"))),
         w)).
Proof.
  split.
  - intros N. destruct message; try discriminate N; reflexivity.
  - intros N H. unfold MESSAGE_TYPES in H.
    repeat match goal with
           | H : Forall _ (_ :: _) |- _ => apply Forall_cons in H as [? H]
           end.
    unfold onMessage.
    destruct message; try discriminate N;
      repeat match goal with
             | E : Js.is_text _ _ = false |- _ => rewrite E; clear E
             end;
      reflexivity.
Qed.

Lemma unknown_message_type_is_refused_witness :
  onMessage alice_env JNull alice_cached_world = (None, alice_cached_world)
  /\ onMessage alice_env (request "CONTENT_SCRIPT_READY" []) alice_cached_world
     = (Some (envelope_failure "UNKNOWN_MESSAGE_TYPE"
                "Unknown message type: CONTENT_SCRIPT_READY"),
        alice_cached_world).
Proof.
  split.
  - exact (proj1 (unknown_message_type_is_refused alice_env JNull alice_cached_world)
             eq_refl).
  - refine (proj2 (unknown_message_type_is_refused alice_env
                     (request "CONTENT_SCRIPT_READY" []) alice_cached_world) eq_refl _).
    repeat constructor.
Defined.

(** X9. A search request whose query is truthy but not text (a number, a
    boolean, an array, an object) makes [query.trim] fail; the listener
    answers [INTERNAL_ERROR] with that error's message, and the cache,
    the slot and the trace stay as they were. *)
Theorem non_text_query_is_internal_error (env : Env) (query : JsVal) (w : World) :
  Js.truthy query = true ->
  (forall s, query <> JStr s) ->
  onMessage env (request "SEARCH_MOVIES" [("query", query)]) w
  = (Some (envelope_failure "INTERNAL_ERROR" "query.trim is not a function"), w).
Proof.
  intros Ht Hs. unfold onMessage, request.
  change (Js.propOpt _ "type") with (JStr "SEARCH_MOVIES").
  change (Js.propOpt _ "query") with query.
  change (Js.is_text (JStr "SEARCH_MOVIES") "CHECK_SESSION") with false.
  change (Js.is_text (JStr "SEARCH_MOVIES") "SEARCH_MOVIES") with true.
  cbv iota. unfold handleSearchMovies. rewrite Ht. cbn [negb].
  destruct query; try reflexivity.
  contradiction (Hs s). reflexivity.
Qed.

Lemma non_text_query_is_internal_error_witness :
  onMessage alice_env (request "SEARCH_MOVIES" [("query", JNum 2021)]) alice_cached_world
  = (Some (envelope_failure "INTERNAL_ERROR" "query.trim is not a function"),
     alice_cached_world).
Proof.
  apply (non_text_query_is_internal_error alice_env (JNum 2021) alice_cached_world);
    [reflexivity|discriminate].
Defined.

(** X10. A details request without a usable id ([undefined], [null],
    [false], [0] or the empty text) is answered with [INVALID_ID] before
    the cache is consulted or the agent contacted; in particular a
    request that carries no [movieId] at all. *)
Theorem missing_id_is_rejected (env : Env) (movieId : JsVal) (w : World) :
  Js.truthy movieId = false ->
  handleGetMovieDetails env movieId w
  = (Normal (envelope_failure "INVALID_ID" "Movie ID is required"), w)
  /\ onMessage env (request "GET_MOVIE_DETAILS" []) w
     = (Some (envelope_failure "INVALID_ID" "Movie ID is required"), w).
Proof.
  intros H. split.
  - unfold handleGetMovieDetails. rewrite H. reflexivity.
  - reflexivity.
Qed.

Lemma missing_id_is_rejected_witness :
  handleGetMovieDetails alice_env (JStr EmptyString) alice_cached_world
  = (Normal (envelope_failure "INVALID_ID" "Movie ID is required"), alice_cached_world).
Proof.
  apply (proj1 (missing_id_is_rejected alice_env (JStr EmptyString) alice_cached_world
                  eq_refl)).
Defined.

Lemma pipeline_nullish_reply env type args annotate message w resp w2 :
  fst (cacheManager_get type args w) = Normal JNull ->
  sendToContentScript env message (snd (cacheManager_get type args w)) = (Normal resp, w2) ->
  Js.prop resp "success" = None ->
  pipeline env type args annotate message w = (Throw (cannot_read resp "success"), w2)
  /\ (forall k, ~ In (CacheSet k) (new_events w w2))
  /\ cache w2 = cache (snd (cacheManager_get type args w)).
Proof.
  intros Hmiss Hsend Hnone.
  destruct (cacheManager_get_frame type args w)
    as (v & c1 & pe & Hget & _ & Hpe & _).
  rewrite Hget in Hmiss, Hsend |- *. cbn [fst snd] in *. injection Hmiss as ->.
  rewrite (pipeline_run _ _ _ _ _ _ _ _ _ _ Hget Hsend). cbn [is_null negb].
  rewrite Hnone. split; [reflexivity|].
  destruct (sendToContentScript_frame env message
              (mkWorld (now w) c1 (pendingSearch w) (trace w ++ pe)))
    as (r & dt & evs & Hsend' & Hevs).
  rewrite Hsend in Hsend'. injection Hsend' as -> ->.
  split; [|reflexivity].
  intros k Hin.
  erewrite new_events_app in Hin by (cbn [trace]; rewrite <- app_assoc; reflexivity).
  apply in_app_or in Hin as [Hin|Hin];
    [exact (Hpe _ Hin)|exact (no_cache_event_in _ _ Hevs Hin)].
Qed.

(** X11. When the tab settles a request with [undefined] or [null]
    instead of an envelope, reading [response.success] fails: a session
    check or a search that missed the cache is answered by the listener
    with [INTERNAL_ERROR] carrying that error's message, no cache write
    is recorded and the cache is as the lookup left it. *)
Theorem nullish_reply_is_internal_error (env : Env) (w w2 : World) (resp : JsVal) :
  Js.prop resp "success" = None ->
  (fst (cacheManager_get "sessionState" [JStr "status"] w) = Normal JNull ->
   sendToContentScript env checkAuthMessage
     (snd (cacheManager_get "sessionState" [JStr "status"] w)) = (Normal resp, w2) ->
   onMessage env (request "CHECK_SESSION" []) w
   = (Some (envelope_failure "INTERNAL_ERROR" (cannot_read resp "success")), w2)
   /\ (forall k, ~ In (CacheSet k) (new_events w w2))
   /\ cache w2 = cache (snd (cacheManager_get "sessionState" [JStr "status"] w)))
  /\ (forall q : string,
        JsString.trim q <> EmptyString ->
        fst (cacheManager_get "searchResults" [JStr (normalizedQuery q)] w) = Normal JNull ->
        sendToContentScript env (searchMessage q)
          (snd (cacheManager_get "searchResults" [JStr (normalizedQuery q)] w))
        = (Normal resp, w2) ->
        onMessage env (request "SEARCH_MOVIES" [("query", JStr q)]) w
        = (Some (envelope_failure "INTERNAL_ERROR" (cannot_read resp "success")), w2)
        /\ (forall k, ~ In (CacheSet k) (new_events w w2))
        /\ cache w2
           = cache (snd (cacheManager_get "searchResults" [JStr (normalizedQuery q)] w))).
Proof.
  intros Hnone. split.
  - intros Hmiss Hsend.
    destruct (pipeline_nullish_reply env "sessionState" [JStr "status"] (fun v => v)
                checkAuthMessage w resp w2 Hmiss Hsend Hnone) as (Hrun & Hno & Hc).
    split; [|split; assumption].
    unfold onMessage, request.
    change (Js.propOpt _ "type") with (JStr "CHECK_SESSION").
    change (Js.is_text (JStr "CHECK_SESSION") "CHECK_SESSION") with true.
    cbv iota. rewrite handleCheckSession_pipeline, Hrun. reflexivity.
  - intros q Hq Hmiss Hsend.
    destruct (pipeline_nullish_reply env "searchResults" [JStr (normalizedQuery q)]
                with_cached (searchMessage q) w resp w2 Hmiss Hsend Hnone)
      as (Hrun & Hno & Hc).
    split; [|split; assumption].
    unfold onMessage, request.
    change (Js.propOpt _ "type") with (JStr "SEARCH_MOVIES").
    change (Js.propOpt _ "query") with (JStr q).
    change (Js.is_text (JStr "SEARCH_MOVIES") "CHECK_SESSION") with false.
    change (Js.is_text (JStr "SEARCH_MOVIES") "SEARCH_MOVIES") with true.
    cbv iota. rewrite (handleSearchMovies_pipeline _ _ Hq), Hrun. reflexivity.
Qed.

Lemma nullish_reply_is_internal_error_witness :
  onMessage silent_env (request "CHECK_SESSION" []) (fresh_world 1000)
  = (Some (envelope_failure "INTERNAL_ERROR"
             "Cannot read properties of undefined (reading 'success')"),
     mkWorld 1075 ∅ None
       [TabsQuery; TabsSendMessage 7 ping; TabsSendMessage 7 checkAuthMessage]).
Proof.
  refine (proj1 (proj1 (nullish_reply_is_internal_error silent_env (fresh_world 1000) _
                          JUndefined _) _ _));
    vm_compute; reflexivity.
Defined.

(** X12. A selection sent from the context menu reaches the popup: if the
    slot still holds what the click stored and the read resumes less than
    five minutes after the click, [GET_PENDING_SEARCH] returns the
    trimmed selection, which is never the empty text. *)
Theorem clicked_selection_is_read_back (env1 env2 : Env) (text : string) (w w2 : World) :
  JsString.all_whitespace text = false ->
  pendingSearch w2 = pendingSearch (snd (onClicked env1 CONTEXT_MENU_ID (Some text) w)) ->
  now w2 + elapsed env2 StorageGet - now w < 5 * 60 * 1000 ->
  fst (handleGetPendingSearch env2 w2)
  = Normal (JObj [("success", JBool true); ("query", JStr (JsString.trim text))])
  /\ Js.truthy (JStr (JsString.trim text)) = true.
Proof.
  intros Hws Hslot Hage.
  destruct (all_whitespace_nonempty_trim _ Hws) as [Htext Htrim].
  assert (Hstored : pendingSearch (snd (onClicked env1 CONTEXT_MENU_ID (Some text) w))
                    = Some (mkPending (JsString.trim text) (now w))).
  { unfold onClicked. rewrite String.eqb_refl.
    destruct text as [|c text]; [contradiction Htext; reflexivity|].
    cbn [Js.truthy andb].
    destruct (JsString.trim (String c text)) as [|c' trimmed];
      [contradiction Htrim; reflexivity|].
    reflexivity. }
  rewrite Hstored in Hslot. rewrite handleGetPendingSearch_run, Hslot.
  cbn [fst timestamp query]. split.
  - destruct (Z.ltb_spec (now w2 + elapsed env2 StorageGet - now w) five_minutes) as [_|H];
      [reflexivity|]. unfold five_minutes in H. lia.
  - destruct (JsString.trim text); [contradiction Htrim; reflexivity|reflexivity].
Qed.

Lemma clicked_selection_is_read_back_witness :
  fst (handleGetPendingSearch alice_env
         (later 60000 (snd (onClicked alice_env CONTEXT_MENU_ID (Some " Dune ")
                              (fresh_world 1000)))))
  = Normal (JObj [("success", JBool true); ("query", JStr "Dune")]).
Proof.
  apply (proj1 (clicked_selection_is_read_back alice_env alice_env " Dune "
                  (fresh_world 1000)
                  (later 60000 (snd (onClicked alice_env CONTEXT_MENU_ID (Some " Dune ")
                                       (fresh_world 1000))))
                  eq_refl eq_refl eq_refl)).
Defined.

(** ** More on auth detection *)

Lemma split_nonempty sep s : JsString.split sep s <> [].
Proof.
  destruct s as [|c r]; cbn; [discriminate|].
  destruct (Ascii.eqb c sep); [discriminate|].
  destruct (JsString.split sep r); discriminate.
Qed.

Lemma split_lacking sep s : lacks sep s = true -> JsString.split sep s = [s].
Proof.
  induction s as [|c r IH]; cbn; [reflexivity|].
  intros H. apply andb_true_iff in H as [Hc Hr].
  apply negb_true_iff in Hc. rewrite Hc, (IH Hr). reflexivity.
Qed.

Lemma split_app sep a r :
  lacks sep a = true ->
  JsString.split sep (a ++ String sep r) = a :: JsString.split sep r.
Proof.
  induction a as [|c a IH]; simpl.
  - intros _. rewrite Ascii.eqb_refl. reflexivity.
  - intros H. apply andb_true_iff in H as [Hc Ha].
    apply negb_true_iff in Hc. rewrite Hc, (IH Ha). reflexivity.
Qed.

Lemma lacks_app sep a b :
  lacks sep a = true -> lacks sep b = true -> lacks sep (a ++ b) = true.
Proof.
  induction a as [|c a IH]; simpl; [auto|].
  intros H Hb. apply andb_true_iff in H as [H Ha].
  rewrite H, (IH Ha Hb). reflexivity.
Qed.

Lemma spaceless_app a b :
  spaceless a = true -> spaceless b = true -> spaceless (a ++ b) = true.
Proof.
  induction a as [|c a IH]; simpl; [auto|].
  intros H Hb. apply andb_true_iff in H as [H Ha].
  rewrite H, (IH Ha Hb). reflexivity.
Qed.

Lemma trim_spaceless s : spaceless s = true -> JsString.trim s = s.
Proof.
  assert (Hend : forall x, spaceless x = true -> JsString.trimEnd x = x).
  { induction x as [|c x IH]; cbn; [reflexivity|].
    intros H. apply andb_true_iff in H as [Hc Hx].
    apply negb_true_iff in Hc. rewrite (IH Hx), Hc. destruct x; reflexivity. }
  intros H. unfold JsString.trim. destruct s as [|c s]; [reflexivity|].
  pose proof H as H'. cbn in H'. apply andb_true_iff in H' as [Hc _].
  apply negb_true_iff in Hc. cbn [JsString.trimStart]. rewrite Hc.
  apply Hend. exact H.
Qed.

Lemma cookie_token_parts s :
  cookie_token s = true ->
  lacks ";" s = true /\ lacks "=" s = true /\ spaceless s = true.
Proof.
  induction s as [|c s IH]; cbn; [auto|].
  intros H. repeat (apply andb_true_iff in H as [H ?]).
  destruct (IH ltac:(assumption)) as (-> & -> & ->).
  rewrite !andb_true_r. auto.
Qed.

(** How one name/value pair of tokens is judged. *)
Lemma cookie_pair_is_auth name value :
  cookie_token name = true -> cookie_token value = true ->
  Agent.cookie_is_auth (cookie_pair (name, value))
  = String.eqb name "auth_token" && Js.truthy (JStr value).
Proof.
  intros Hn Hv. unfold Agent.cookie_is_auth, cookie_pair. cbn [fst snd].
  destruct (cookie_token_parts _ Hn) as (_ & Hneq & Hns).
  destruct (cookie_token_parts _ Hv) as (_ & Hveq & Hvs).
  rewrite trim_spaceless by (apply spaceless_app; [exact Hns|cbn; exact Hvs]).
  rewrite (split_app _ _ _ Hneq), (split_lacking _ _ Hveq). reflexivity.
Qed.

Lemma cookie_is_auth_leading_space c :
  Agent.cookie_is_auth (String " " c) = Agent.cookie_is_auth c.
Proof. reflexivity. Qed.

Lemma existsb_split_cookies (items : list string) :
  Forall (fun c => lacks ";" c = true) items ->
  existsb Agent.cookie_is_auth (JsString.split ";" (JsString.join "; " items))
  = existsb Agent.cookie_is_auth items.
Proof.
  induction items as [|a rest IH]; intros H; [reflexivity|].
  apply Forall_cons in H as [Ha Hrest].
  destruct rest as [|b rest].
  - cbn [JsString.join]. rewrite (split_lacking _ _ Ha). reflexivity.
  - change (JsString.join "; " (a :: b :: rest))
      with (a ++ String ";" (String " " (JsString.join "; " (b :: rest)))).
    rewrite (split_app _ _ _ Ha).
    change (existsb Agent.cookie_is_auth (a :: b :: rest))
      with (Agent.cookie_is_auth a || existsb Agent.cookie_is_auth (b :: rest)).
    rewrite <- (IH Hrest).
    cbn [JsString.split existsb]. change (Ascii.eqb " " ";") with false. cbv iota.
    f_equal.
    destruct (JsString.split ";" (JsString.join "; " (b :: rest))) as [|x xs] eqn:E;
      [exact (False_ind _ (split_nonempty _ _ E))|].
    cbn [existsb]. rewrite cookie_is_auth_leading_space. reflexivity.
Qed.

(** X13. For a cookie header made of name/value pairs of tokens, the
    cookie probe reports a login exactly when some pair is named
    [auth_token] and has a non-empty value; the position of the pair in
    the header and the other cookies play no part. *)
Theorem cookie_probe_finds_auth_token (page : Page) (pairs : list (string * string)) :
  cookie page = cookie_header pairs ->
  Forall (fun p => cookie_token (fst p) = true /\ cookie_token (snd p) = true) pairs ->
  Agent.checkAuthFromCookie page <> None
  <-> exists value, In ("auth_token", value) pairs /\ value <> EmptyString.
Proof.
  intros Hcookie Htok. unfold Agent.checkAuthFromCookie. rewrite Hcookie.
  unfold cookie_header. rewrite existsb_split_cookies.
  2:{ apply List.Forall_forall. intros c Hin.
      apply in_map_iff in Hin as ([n v] & <- & Hin).
      destruct (proj1 (List.Forall_forall _ _) Htok _ Hin) as [Hn Hv].
      cbn [fst snd] in *. unfold cookie_pair. cbn [fst snd].
      destruct (cookie_token_parts _ Hn) as (Hn' & _).
      destruct (cookie_token_parts _ Hv) as (Hv' & _).
      apply lacks_app; [exact Hn'|cbn; exact Hv']. }
  destruct (existsb Agent.cookie_is_auth (map cookie_pair pairs)) eqn:E.
  - split; [intros _|discriminate].
    apply existsb_exists in E as (c & Hin & Hc).
    apply in_map_iff in Hin as ([n v] & <- & Hin).
    destruct (proj1 (List.Forall_forall _ _) Htok _ Hin) as [Hn Hv].
    cbn [fst snd] in Hn, Hv.
    rewrite (cookie_pair_is_auth _ _ Hn Hv) in Hc.
    apply andb_true_iff in Hc as [Hname Hval]. apply String.eqb_eq in Hname. subst n.
    exists v. split; [exact Hin|]. intros ->. discriminate.
  - split; [intros H; contradiction H; reflexivity|].
    intros (v & Hin & Hv). exfalso.
    assert (existsb Agent.cookie_is_auth (map cookie_pair pairs) = true); [|congruence].
    apply existsb_exists. exists (cookie_pair ("auth_token", v)).
    split; [apply in_map; exact Hin|].
    destruct (proj1 (List.Forall_forall _ _) Htok _ Hin) as [Hn Hv'].
    cbn [fst snd] in Hn, Hv'.
    rewrite (cookie_pair_is_auth _ _ Hn Hv'). cbn.
    destruct v; [contradiction Hv; reflexivity|reflexivity].
Qed.

Lemma cookie_probe_finds_auth_token_witness :
  Agent.checkAuthFromCookie cookie_page <> None.
Proof.
  apply (cookie_probe_finds_auth_token cookie_page
           [("theme", "dark"); ("auth_token", "abc123")]).
  - reflexivity.
  - repeat constructor.
  - exists "abc123". split; [right; left; reflexivity|discriminate].
Defined.

(** X14. The cookie probe has the first and final word: whenever it finds
    the token, the auth check reports a cookie-based login, whatever the
    DOM shows, whichever path the page is on and whatever the profile
    endpoint would answer. *)
Theorem cookie_login_overrides_other_probes (page : Page) :
  Agent.checkAuthFromCookie page <> None ->
  Agent.checkAuth page
  = JObj [("success", JBool true); ("isLoggedIn", JBool true); ("username", JNull);
          ("method", JStr "cookie"); ("indicator", JStr "auth_token")]
  /\ forall other : Page,
       cookie other = cookie page -> Agent.checkAuth other = Agent.checkAuth page.
Proof.
  intros H.
  assert (Hshape : forall p, cookie p = cookie page ->
            Agent.checkAuth p
            = JObj [("success", JBool true); ("isLoggedIn", JBool true);
                    ("username", JNull); ("method", JStr "cookie");
                    ("indicator", JStr "auth_token")]).
  { intros p Hp. unfold Agent.checkAuth, Agent.checkAuthFromCookie in *. rewrite Hp.
    destruct (existsb Agent.cookie_is_auth (JsString.split ";" (cookie page)));
      [reflexivity|contradiction H; reflexivity]. }
  split; [apply Hshape; reflexivity|].
  intros other Ho. rewrite (Hshape other Ho), (Hshape page eq_refl). reflexivity.
Qed.

Lemma cookie_login_overrides_other_probes_witness :
  Agent.checkAuth cookie_page
  = JObj [("success", JBool true); ("isLoggedIn", JBool true); ("username", JNull);
          ("method", JStr "cookie"); ("indicator", JStr "auth_token")].
Proof.
  apply (proj1 (cookie_login_overrides_other_probes cookie_page ltac:(discriminate))).
Defined.

Lemma segment_decompose s :
  exists post,
    s = Agent.segment s ++ post
    /\ slash_free (Agent.segment s) = true
    /\ (post = EmptyString \/ exists p, post = String "/" p).
Proof.
  induction s as [|c s (post & Hs & Hfree & Hpost)]; cbn.
  - exists EmptyString. auto.
  - destruct (Ascii.eqb_spec c "/") as [->|Hne].
    + exists (String "/" s). split; [reflexivity|]. split; [reflexivity|]. right. eauto.
    + exists post.
      split; [change (String c s = String c (Agent.segment s ++ post)); f_equal; exact Hs|].
      split; [|exact Hpost].
      cbn. rewrite Hfree. destruct (Ascii.eqb_spec c "/"); [contradiction|reflexivity].
Qed.

Lemma segment_exact name post :
  slash_free name = true ->
  post = EmptyString \/ (exists p, post = String "/" p) ->
  Agent.segment (name ++ post) = name.
Proof.
  intros Hfree Hpost. induction name as [|c name IH].
  - destruct Hpost as [->|[p ->]]; reflexivity.
  - change (Agent.segment (String c (name ++ post)) = String c name).
    cbn [Agent.segment].
    cbn in Hfree. apply andb_true_iff in Hfree as [Hc Hfree].
    apply negb_true_iff in Hc. rewrite Hc, (IH Hfree). reflexivity.
Qed.

(** X15. The user name taken from a profile link is a path segment: when
    the pattern matches, the [href] reads [pre/u/name post] where [name]
    is non-empty and has no slash and [post] is empty or begins with a
    slash; and an [href] that begins with [/u/name], with such a [name]
    ending at a slash or at the end, yields exactly [name]. *)
Theorem profile_name_is_a_path_segment (h : string) :
  (forall name,
      Agent.match_profile h = Some name ->
      name <> EmptyString
      /\ slash_free name = true
      /\ exists pre post,
          h = pre ++ "/u/" ++ name ++ post
          /\ (post = EmptyString \/ exists p, post = String "/" p))
  /\ (forall name post,
        name <> EmptyString -> slash_free name = true ->
        post = EmptyString \/ (exists p, post = String "/" p) ->
        Agent.match_profile ("/u/" ++ name ++ post) = Some name).
Proof.
  split.
  - induction h as [|a r IH]; intros name H; [discriminate|].
    cbn [Agent.match_profile] in H.
    assert (Hrec : Agent.match_profile r = Some name ->
                   name <> EmptyString /\ slash_free name = true
                   /\ exists pre post,
                       String a r = pre ++ "/u/" ++ name ++ post
                       /\ (post = EmptyString \/ exists p, post = String "/" p)).
    { intros Hr. destruct (IH _ Hr) as (Hne & Hfree & pre & post & Hh & Hpost).
      repeat split; auto. exists (String a pre), post. split; [|exact Hpost].
      change (String a r = String a (pre ++ "/u/" ++ name ++ post)).
      f_equal. exact Hh. }
    destruct r as [|b [|c rest]]; [discriminate|cbn in H; discriminate|].
    destruct (Ascii.eqb a "/" && Ascii.eqb b "u" && Ascii.eqb c "/") eqn:E;
      [|exact (Hrec H)].
    destruct (Agent.segment rest) as [|s0 seg] eqn:S; [exact (Hrec H)|].
    injection H as <-.
    apply andb_true_iff in E as [E Ec]. apply andb_true_iff in E as [Ea Eb].
    apply Ascii.eqb_eq in Ea, Eb, Ec. subst a b c.
    destruct (segment_decompose rest) as (post & Hrest & Hfree & Hpost).
    rewrite S in Hrest, Hfree.
    split; [discriminate|]. split; [exact Hfree|].
    exists EmptyString, post. split; [|exact Hpost].
    change (String "/" (String "u" (String "/" rest))
            = String "/" (String "u" (String "/" (String s0 seg ++ post)))).
    do 3 f_equal. exact Hrest.
  - intros name post Hne Hfree Hpost.
    change ("/u/" ++ name ++ post) with (String "/" (String "u" (String "/" (name ++ post)))).
    cbn [Agent.match_profile]. change (Ascii.eqb "/" "/" && Ascii.eqb "u" "u" && Ascii.eqb "/" "/") with true.
    cbv iota. rewrite (segment_exact _ _ Hfree Hpost).
    destruct name; [contradiction Hne; reflexivity|reflexivity].
Qed.

Lemma profile_name_is_a_path_segment_witness :
  Agent.match_profile ("/u/" ++ "alice" ++ "/lists") = Some "alice".
Proof.
  apply (proj2 (profile_name_is_a_path_segment "/u/alice/lists") "alice" "/lists").
  - discriminate.
  - reflexivity.
  - right. exists "lists". reflexivity.
Defined.

(** ** More on search *)

Lemma prop_nullish v k : nullish v = true -> Js.prop v k = None.
Proof. destruct v; cbn; congruence. Qed.

Lemma prop_not_nullish v k : nullish v = false -> Js.prop v k = Some (Js.propOpt v k).
Proof. destruct v; cbn; try congruence; reflexivity. Qed.

Lemma normalizeMovieData_defined u :
  nullish u = false <-> exists i, Agent.normalizeMovieData u = Normal i.
Proof.
  unfold Agent.normalizeMovieData. split.
  - intros H. rewrite (prop_not_nullish _ _ H). eauto.
  - intros [i H]. destruct (nullish u) eqn:N; [|reflexivity].
    rewrite (prop_nullish _ _ N) in H. discriminate.
Qed.

Lemma map_items_Forall2 f l ys :
  Agent.map_items f l = Normal ys <-> Forall2 (fun x y => f x = Normal y) l ys.
Proof.
  revert ys. induction l as [|x l IH]; intros ys; cbn.
  - split; [intros [= <-]; constructor|intros H; inversion H; reflexivity].
  - split.
    + destruct (f x) as [y|] eqn:E; [|discriminate].
      destruct (Agent.map_items f l) as [ys'|]; [|discriminate].
      intros [= <-]. constructor; [exact E|]. apply IH. reflexivity.
    + intros H. inversion H as [|? y ? ys' Hx Hl]; subst.
      rewrite Hx. rewrite (proj2 (IH ys') Hl). reflexivity.
Qed.

Lemma map_items_defined l :
  Forall (fun u => nullish u = false) l
  <-> exists items, Agent.map_items Agent.normalizeMovieData l = Normal items.
Proof.
  induction l as [|x l IH]; cbn.
  - split; [eauto|constructor].
  - split.
    + intros H. apply Forall_cons in H as [Hx Hl].
      apply normalizeMovieData_defined in Hx as [i ->].
      apply IH in Hl as [items ->]. eauto.
    + intros [items H].
      destruct (Agent.normalizeMovieData x) as [i|] eqn:E; [|discriminate].
      destruct (Agent.map_items Agent.normalizeMovieData l) as [ys|] eqn:E'; [|discriminate].
      constructor; [apply normalizeMovieData_defined; eauto|apply IH; eauto].
Qed.

(** X16. A search always ends in an envelope with a boolean [success]. It
    is [true] exactly when the endpoint answered 2xx with a JSON body
    that is not [null], whose [data] is falsy or an array, and none of
    whose items is [null]: one bad item fails the whole search. On
    success [results] holds the normalised items, one per upstream item
    and in the same order. *)
Theorem search_succeeds_iff_well_formed (page : Page) (query pageNo : JsVal) :
  (exists b, Js.prop (Agent.searchViaAPI page query pageNo) "success" = Some (JBool b))
  /\ (Js.prop (Agent.searchViaAPI page query pageNo) "success" = Some (JBool true)
      <-> exists upstream,
            search_answered page query pageNo upstream
            /\ Forall (fun u => nullish u = false) upstream)
  /\ (forall upstream,
        search_answered page query pageNo upstream ->
        Forall (fun u => nullish u = false) upstream ->
        exists items,
          Js.prop (Agent.searchViaAPI page query pageNo) "results" = Some (JArr items)
          /\ Forall2 (fun u i => Agent.normalizeMovieData u = Normal i) upstream items).
Proof.
  unfold search_answered, Agent.searchViaAPI. fold (search_url query pageNo).
  destruct (fetch page (search_url query pageNo)) as [m|status json].
  { split; [eexists; reflexivity|]. split.
    - split; [discriminate|]. intros (up & (s & d & H & _) & _). discriminate.
    - intros up (s & d & H & _). discriminate. }
  destruct (Agent.ok status) eqn:Hok.
  2:{ assert (Hfail :
                Js.prop (if (status =? 401) || (status =? 403)
                         then envelope_failure "UNAUTHORIZED"
                                "Session expired. Please log in again."
                         else envelope_failure "API_ERROR"
                                ("Search failed with status " ++ Js.toString (JNum status)))
                        "success" = Some (JBool false)).
      { destruct ((status =? 401) || (status =? 403)); reflexivity. }
      split; [eexists; exact Hfail|]. split.
      - rewrite Hfail. split; [discriminate|].
        intros (up & (s & d & [= <- _] & Hs & _) & _). congruence.
      - intros up (s & d & [= <- _] & Hs & _). congruence. }
  destruct json as [data|m].
  2:{ split; [eexists; reflexivity|]. split.
      - split; [discriminate|]. intros (up & (s & d & H & _) & _). discriminate.
      - intros up (s & d & H & _). discriminate. }
  destruct (nullish data) eqn:Hnull.
  { rewrite (prop_nullish _ _ Hnull).
    split; [eexists; reflexivity|]. split.
    - split; [discriminate|]. intros (up & (s & d & [= _ <-] & _ & Hn & _) & _). congruence.
    - intros up (s & d & [= _ <-] & _ & Hn & _). congruence. }
  rewrite (prop_not_nullish _ _ Hnull).
  destruct (Js.or (Js.propOpt data "data") (JArr [])) as [| |b|n|s0|upstream|props] eqn:Hdata;
    try (split; [eexists; reflexivity|]; split;
         [split; [discriminate|];
          intros (up & (s & d & [= _ <-] & _ & _ & Hd) & _); congruence
         |intros up (s & d & [= _ <-] & _ & _ & Hd); congruence]).
  destruct (Agent.map_items Agent.normalizeMovieData upstream) as [items|m] eqn:Hmap.
  - split; [eexists; reflexivity|]. split.
    + split; [intros _|reflexivity].
      exists upstream. split; [exists status, data; auto|].
      apply map_items_defined. eauto.
    + intros up (s & d & [= _ <-] & _ & _ & Hd) _.
      rewrite Hdata in Hd. injection Hd as <-.
      exists items. split; [reflexivity|]. apply map_items_Forall2. exact Hmap.
  - split; [eexists; reflexivity|]. split.
    + split; [discriminate|].
      intros (up & (s & d & [= _ <-] & _ & _ & Hd) & Hall).
      rewrite Hdata in Hd. injection Hd as <-.
      apply map_items_defined in Hall as [items Hitems]. congruence.
    + intros up (s & d & [= _ <-] & _ & _ & Hd) Hall.
      rewrite Hdata in Hd. injection Hd as <-.
      apply map_items_defined in Hall as [items Hitems]. congruence.
Qed.

Lemma search_succeeds_iff_well_formed_witness :
  exists items,
    Js.prop (Agent.searchViaAPI dune_page (JStr "dune") (JNum 1)) "results"
    = Some (JArr items)
    /\ Forall2 (fun u i => Agent.normalizeMovieData u = Normal i)
         [JObj [("slug", JStr "dune-2021"); ("name", JStr "Dune"); ("year", JNum 2021);
                ("is_show", JBool false); ("image", JStr "x.jpg")]]
         items.
Proof.
  apply (proj2 (proj2 (search_succeeds_iff_well_formed dune_page (JStr "dune") (JNum 1)))).
  - exists 200, dune_upstream. repeat split; vm_compute; reflexivity.
  - repeat constructor.
Defined.

Lemma in_chars_app c a b :
  In c (list_ascii_of_string (a ++ b)) ->
  In c (list_ascii_of_string a) \/ In c (list_ascii_of_string b).
Proof.
  induction a as [|x a IH]; [right; assumption|].
  change (list_ascii_of_string (String x a ++ b))
    with (x :: list_ascii_of_string (a ++ b)).
  intros [->|H]; [left; left; reflexivity|].
  destruct (IH H); [left; right; assumption|right; assumption].
Qed.

Lemma encoded_char_safe (ch : ascii) :
  forallb (fun c => Agent.unreserved c || Ascii.eqb c "%")
    (list_ascii_of_string
       (if Agent.unreserved ch then String ch EmptyString
        else if (nat_of_ascii ch <? 128)%nat then Agent.percent (nat_of_ascii ch)
             else Agent.percent (192 + nat_of_ascii ch / 64)
                  ++ Agent.percent (128 + nat_of_ascii ch mod 64)))
  = true.
Proof. destruct ch as [[] [] [] [] [] [] [] []]; vm_compute; reflexivity. Qed.

(** X17. Whatever the query, its encoded form in the search and content
    URLs consists of unreserved characters and percent signs only, so it
    holds no [&], [=], [?], [#], [/] or space: the query cannot add a
    parameter to the request or leave its path segment. *)
Theorem encoded_query_has_no_delimiter (s : string) (c : ascii) :
  In c (list_ascii_of_string (Agent.encodeURIComponent s)) ->
  (Agent.unreserved c = true \/ c = "%"%char)
  /\ ~ In c ["&"; "="; "?"; "#"; "/"; " "]%char.
Proof.
  intros H.
  assert (Hsafe : Agent.unreserved c || Ascii.eqb c "%" = true).
  { induction s as [|ch s IH]; [destruct H|].
    cbn [Agent.encodeURIComponent] in H. apply in_chars_app in H as [H|H]; [|exact (IH H)].
    pose proof (encoded_char_safe ch) as Hch.
    rewrite forallb_forall in Hch. exact (Hch _ H). }
  split.
  - apply orb_true_iff in Hsafe as [Hu|Hp]; [left; exact Hu|right].
    apply Ascii.eqb_eq in Hp. exact Hp.
  - intros Hin. cbn [In] in Hin.
    repeat (destruct Hin as [<-|Hin]; [vm_compute in Hsafe; discriminate|]).
    exact Hin.
Qed.

Lemma encoded_query_has_no_delimiter_witness :
  (Agent.unreserved "%" = true \/ "%"%char = "%"%char)
  /\ ~ In "%"%char ["&"; "="; "?"; "#"; "/"; " "]%char.
Proof.
  apply (encoded_query_has_no_delimiter "a&page=9" "%").
  vm_compute. right. left. reflexivity.
Defined.

(** ** More on movie details *)

(** X18. A details request always ends in an envelope with a boolean
    [success]. It succeeds only for a truthy slug whose content endpoint
    answered 2xx with a JSON body other than [null]; every failure
    carries one of four error kinds, and a falsy slug is refused without
    looking at the page. *)
Theorem details_reply_is_classified (page : Page) (slug : JsVal) :
  exists b : bool,
    Js.prop (Agent.getDetails page slug) "success" = Some (JBool b)
    /\ (b = true ->
        Js.truthy slug = true
        /\ exists status data,
            fetch page (content_url slug) = FetchResponse status (Normal data)
            /\ Agent.ok status = true
            /\ nullish data = false)
    /\ (b = false ->
        exists e,
          Js.prop (Agent.getDetails page slug) "error" = Some (JStr e)
          /\ In e ["INVALID_SLUG"; "UNAUTHORIZED"; "NOT_FOUND"; "FETCH_FAILED"])
    /\ (Js.truthy slug = false ->
        Agent.getDetails page slug
        = envelope_failure "INVALID_SLUG" "Movie slug is required").
Proof.
  unfold Agent.getDetails, Agent.getDetailsViaAPI. fold (content_url slug).
  destruct (Js.truthy slug) eqn:Hslug; cbn [negb].
  2:{ exists false. repeat split; try discriminate.
      intros _. eexists. split; [reflexivity|]. cbn. auto. }
  assert (Hfailed : exists e,
             Js.prop Agent.fetch_failed "error" = Some (JStr e)
             /\ In e ["INVALID_SLUG"; "UNAUTHORIZED"; "NOT_FOUND"; "FETCH_FAILED"]).
  { eexists. split; [reflexivity|]. cbn. auto. }
  destruct (fetch page (content_url slug)) as [m|status json].
  { exists false. repeat split; try discriminate. intros _. exact Hfailed. }
  destruct (Agent.ok status) eqn:Hok.
  - destruct json as [data|m]; cbn [Agent.cbind].
    2:{ exists false. repeat split; try discriminate. intros _. exact Hfailed. }
    destruct (Agent.normalizeMovieDetails data) as [details|m] eqn:Hd.
    + exists true. split; [reflexivity|]. split; [|split; discriminate].
      intros _. split; [reflexivity|]. exists status, data.
      split; [reflexivity|]. split; [exact Hok|].
      destruct (nullish data) eqn:N; [|reflexivity].
      unfold Agent.normalizeMovieDetails, Agent.field in Hd.
      rewrite (prop_nullish _ _ N) in Hd. discriminate.
    + exists false. repeat split; try discriminate. intros _. exact Hfailed.
  - destruct ((status =? 401) || (status =? 403)).
    + exists false. repeat split; try discriminate.
      intros _. eexists. split; [reflexivity|]. cbn. auto.
    + destruct (status =? 404).
      * exists false. repeat split; try discriminate.
        intros _. eexists. split; [reflexivity|]. cbn. auto.
      * exists false. repeat split; try discriminate. intros _. exact Hfailed.
Qed.

Lemma details_reply_is_classified_witness :
  Agent.getDetails dune_page JNull
  = envelope_failure "INVALID_SLUG" "Movie slug is required".
Proof.
  destruct (details_reply_is_classified dune_page JNull) as (b & _ & _ & _ & H).
  apply H. reflexivity.
Defined.

(** X19. The details of an item keep its identity: in a normalised
    details object, [id] and [slug] are the [slug] of the upstream movie
    (the [movie], [content] or [data] member of the body, else the body
    itself) and [url] is the content path of that slug; the extended
    fields added on top never replace them. *)
Theorem details_keep_item_identity (data details : JsVal) :
  Agent.normalizeMovieDetails data = Normal details ->
  exists movie slug,
    movie = Js.or (Js.propOpt data "movie")
              (Js.or (Js.propOpt data "content") (Js.or (Js.propOpt data "data") data))
    /\ Js.prop movie "slug" = Some slug
    /\ Js.prop details "id" = Some slug
    /\ Js.prop details "slug" = Some slug
    /\ Js.prop details "url" = Some (JStr ("/content/" ++ Js.toString slug)).
Proof.
  unfold Agent.normalizeMovieDetails, Agent.field. intros H.
  destruct (Js.prop data "movie") as [m|] eqn:Hm; [|discriminate].
  cbn [Agent.cbind] in H.
  rewrite (propOpt_prop _ _ _ Hm).
  set (movie := Js.or m (Js.or (Js.propOpt data "content")
                           (Js.or (Js.propOpt data "data") data))) in *.
  unfold Agent.normalizeMovieData in H.
  destruct (Js.prop movie "slug") as [slug|] eqn:Hslug; [|discriminate].
  cbn [Agent.cbind] in H.
  destruct (Js.or (Js.propOpt movie "reviews")
              (Js.or (Js.propOpt movie "userReviews") (JArr [])))
    as [| |b|n|s0|reviews|props]; try discriminate.
  destruct (Agent.map_items Agent.normalizeReview reviews) as [rs|]; [|discriminate].
  cbn [Agent.cbind] in H. injection H as <-.
  exists movie, slug. split; [reflexivity|]. split; [exact Hslug|].
  repeat split; reflexivity.
Qed.

Lemma details_keep_item_identity_witness :
  exists details slug,
    Agent.normalizeMovieDetails dune_details_body = Normal details
    /\ Js.prop details "id" = Some slug
    /\ Js.prop details "slug" = Some slug
    /\ Js.prop details "url" = Some (JStr ("/content/" ++ Js.toString slug)).
Proof.
  destruct (Agent.normalizeMovieDetails dune_details_body) as [details|m] eqn:E;
    [|vm_compute in E; discriminate].
  destruct (details_keep_item_identity _ _ E) as (movie & slug & _ & _ & Hid & Hslug & Hurl).
  exists details, slug. auto.
Defined.

(** ** The agent always answers with an envelope *)

Lemma serialize_keeps_bool (v : JsVal) (k : string) (b : bool) :
  Js.prop v k = Some (JBool b) -> Js.prop (Agent.serialize v) k = Some (JBool b).
Proof.
  destruct v as [| |b'|n|s|items|props]; cbn; try discriminate.
  intros H. f_equal.
  induction props as [|[k' x] rest IH]; cbn in *; [discriminate|].
  destruct (String.eqb k k') eqn:E.
  - injection H as ->. cbn. rewrite E. reflexivity.
  - specialize (IH H).
    destruct x; cbn; rewrite ?E; exact IH.
Qed.

Lemma checkAuth_success (page : Page) :
  Js.prop (Agent.checkAuth page) "success" = Some (JBool true).
Proof. destruct (checkAuth_shape page) as (rest & -> & _). reflexivity. Qed.

Lemma search_success_is_boolean page query pageNo :
  exists b, Js.prop (Agent.searchViaAPI page query pageNo) "success" = Some (JBool b).
Proof.
  unfold Agent.searchViaAPI.
  repeat match goal with
         | |- context [match ?x with _ => _ end] => destruct x
         | |- context [if ?x then _ else _] => destruct x
         end; eexists; reflexivity.
Qed.

Lemma details_success_is_boolean page slug :
  exists b, Js.prop (Agent.getDetails page slug) "success" = Some (JBool b).
Proof.
  unfold Agent.getDetails, Agent.getDetailsViaAPI.
  repeat match goal with
         | |- context [match ?x with _ => _ end] => destruct x
         | |- context [if ?x then _ else _] => destruct x
         end; eexists; reflexivity.
Qed.

Lemma agent_reply_is_envelope (page : Page) (message : JsVal) :
  Js.is_text (Js.propOpt (Agent.serialize message) "type") "PING" = false ->
  exists b, Js.prop (Agent.onMessage page message) "success" = Some (JBool b).
Proof.
  intros Hping. unfold Agent.onMessage. rewrite Hping.
  destruct (Js.is_text _ "CHECK_AUTH").
  { exists true. apply serialize_keeps_bool, checkAuth_success. }
  destruct (Js.is_text _ "SEARCH").
  { destruct (search_success_is_boolean page
                (Js.propOpt (Agent.serialize message) "query")
                (Js.or (Js.propOpt (Agent.serialize message) "page") (JNum 1))) as [b H].
    exists b. apply serialize_keeps_bool. exact H. }
  destruct (Js.is_text _ "GET_DETAILS").
  { destruct (details_success_is_boolean page
                (Js.or (Js.propOpt (Agent.serialize message) "slug")
                       (Js.propOpt (Agent.serialize message) "movieId"))) as [b H].
    exists b. apply serialize_keeps_bool. exact H. }
  exists false. reflexivity.
Qed.

Lemma pipeline_completes env type args annotate message w (b : World -> bool) :
  (forall w1, exists r w2,
      sendToContentScript env message w1 = (Normal r, w2)
      /\ Js.prop r "success" = Some (JBool (b w1))) ->
  exists resp w', pipeline env type args annotate message w = (Normal resp, w').
Proof.
  intros Hsend.
  destruct (cacheManager_get_frame type args w) as (v & c1 & pe & Hget & _).
  destruct (Hsend (mkWorld (now w) c1 (pendingSearch w) (trace w ++ pe)))
    as (r & w2 & Hr & Hs).
  rewrite (pipeline_run _ _ _ _ _ _ _ _ _ _ Hget Hr).
  destruct (negb (is_null v)); [eauto|].
  rewrite Hs. destruct (Js.truthy _); eauto.
Qed.

(** X20. While the agent runs in the located tab, no agent-bound handler
    ends in an exception: the session check, a search for any text and a
    details request for any id all complete with a response, so the
    listener never has to answer them with [INTERNAL_ERROR]. *)
Theorem handlers_complete_with_agent (env : Env) (tab : Tab) (page : Page) :
  agent_runs_in env tab page ->
  (forall w, exists resp w', handleCheckSession env w = (Normal resp, w'))
  /\ (forall q w, exists resp w', handleSearchMovies env (JStr q) w = (Normal resp, w'))
  /\ (forall movieId w, exists resp w', handleGetMovieDetails env movieId w = (Normal resp, w')).
Proof.
  intros Hagent.
  assert (Hreply : forall message,
             Js.is_text (Js.propOpt (Agent.serialize message) "type") "PING" = false ->
             exists f, forall w1, exists r w2,
                 sendToContentScript env message w1 = (Normal r, w2)
                 /\ Js.prop r "success" = Some (JBool (f w1))).
  { intros message Hping.
    destruct (agent_reply_is_envelope page message Hping) as [b Hb].
    exists (fun _ => b). intros w1. eexists _, _.
    split; [apply (sendToContentScript_located env tab page message w1 Hagent)|exact Hb]. }
  split; [|split].
  - intros w. rewrite handleCheckSession_pipeline.
    destruct (Hreply checkAuthMessage eq_refl) as [f Hf].
    exact (pipeline_completes _ _ _ _ _ w f Hf).
  - intros q w.
    destruct (JsString.trim q) as [|c t] eqn:Hq.
    + unfold handleSearchMovies. destruct q as [|c q]; [eauto|].
      cbn [Js.truthy negb]. rewrite Hq. eauto.
    + rewrite (handleSearchMovies_pipeline env q) by (rewrite Hq; discriminate).
      destruct (Hreply (searchMessage q) eq_refl) as [f Hf].
      exact (pipeline_completes _ _ _ _ _ w f Hf).
  - intros movieId w. destruct (Js.truthy movieId) eqn:Hid.
    + rewrite (handleGetMovieDetails_pipeline env movieId Hid).
      destruct (Hreply (detailsMessage movieId) eq_refl) as [f Hf].
      exact (pipeline_completes _ _ _ _ _ w f Hf).
    + unfold handleGetMovieDetails. rewrite Hid. eauto.
Qed.

Lemma handlers_complete_with_agent_witness :
  exists resp w',
    handleGetMovieDetails (agent_env dune_page) (JStr "dune-2021") (fresh_world 1000)
    = (Normal resp, w').
Proof.
  apply (proj2 (proj2 (handlers_complete_with_agent (agent_env dune_page) moctale_tab
                         dune_page
                         (conj eq_refl (fun message => eq_refl))))).
Defined.

(** ** Year extraction *)

Lemma digit_value_range c : is_digit c = true -> 0 <= digit_value c <= 9.
Proof.
  unfold is_digit, digit_value. intros H. apply andb_true_iff in H as [H1 H2].
  apply Nat.leb_le in H1, H2. lia.
Qed.

(** X21. [extractYear] returns the number written by the first four
    consecutive digits of its argument: the digits it reads start where
    the leftmost run of four digits starts, no run of four digits begins
    before them. Hence the value is between 0 and 9999. It returns
    [null] exactly when the argument has no four consecutive digits. *)
Theorem extractYear_reads_four_digits (s : string) :
  (forall y,
      extractYear s = Some y ->
      0 <= y <= 9999
      /\ exists pre a b c d post,
          s = pre ++ String a (String b (String c (String d post)))
          /\ is_digit a && is_digit b && is_digit c && is_digit d = true
          /\ y = 1000 * digit_value a + 100 * digit_value b
                 + 10 * digit_value c + digit_value d
          /\ (forall pre' a' b' c' d' post',
                s = pre' ++ String a' (String b' (String c' (String d' post'))) ->
                is_digit a' && is_digit b' && is_digit c' && is_digit d' = true ->
                (String.length pre <= String.length pre')%nat))
  /\ (extractYear s = None ->
      forall pre a b c d post,
        s = pre ++ String a (String b (String c (String d post))) ->
        is_digit a && is_digit b && is_digit c && is_digit d = false).
Proof.
  split.
  - induction s as [|a r IH]; intros y H; [discriminate|].
    assert (Hrec : (forall b c d post, r = String b (String c (String d post)) ->
                      is_digit a && is_digit b && is_digit c && is_digit d = false) ->
              extractYear r = Some y ->
              0 <= y <= 9999
              /\ exists pre a0 b c d post,
                  String a r = pre ++ String a0 (String b (String c (String d post)))
                  /\ is_digit a0 && is_digit b && is_digit c && is_digit d = true
                  /\ y = 1000 * digit_value a0 + 100 * digit_value b
                         + 10 * digit_value c + digit_value d
                  /\ (forall pre' a' b' c' d' post',
                        String a r
                        = pre' ++ String a' (String b' (String c' (String d' post'))) ->
                        is_digit a' && is_digit b' && is_digit c' && is_digit d' = true ->
                        (String.length pre <= String.length pre')%nat)).
    { intros Hhead Hr.
      destruct (IH _ Hr) as (Hy & pre & a0 & b & c & d & post & Hs & Hd & Hv & Hfirst).
      split; [exact Hy|]. exists (String a pre), a0, b, c, d, post.
      split; [|split; [exact Hd|split; [exact Hv|]]].
      - change (String a r = String a (pre ++ String a0 (String b (String c (String d post))))).
        f_equal. exact Hs.
      - intros pre' a' b' c' d' post' Hs' Hd'.
        destruct pre' as [|p pre'].
        + change (String a r = String a' (String b' (String c' (String d' post')))) in Hs'.
          injection Hs' as <- Hr'.
          rewrite (Hhead _ _ _ _ Hr') in Hd'. discriminate.
        + change (String a r
                  = String p (pre' ++ String a' (String b' (String c' (String d' post')))))
            in Hs'.
          injection Hs' as _ Hr'.
          pose proof (Hfirst _ _ _ _ _ _ Hr' Hd'). cbn [String.length]. lia. }
    cbn [extractYear] in H.
    destruct r as [|b [|c [|d post]]];
      try (apply Hrec; [intros ? ? ? ? [=]|exact H]).
    destruct (is_digit a && is_digit b && is_digit c && is_digit d) eqn:E;
      [|apply Hrec; [intros ? ? ? ? [= <- <- <- <-]; exact E|exact H]].
    injection H as <-.
    pose proof E as E'.
    apply andb_true_iff in E' as [E' Hd]. apply andb_true_iff in E' as [E' Hc].
    apply andb_true_iff in E' as [Ha Hb].
    pose proof (digit_value_range _ Ha). pose proof (digit_value_range _ Hb).
    pose proof (digit_value_range _ Hc). pose proof (digit_value_range _ Hd).
    split; [lia|]. exists EmptyString, a, b, c, d, post.
    split; [reflexivity|split; [exact E|split; [reflexivity|]]].
    intros. cbn [String.length]. lia.
  - induction s as [|x r IH]; intros H pre a b c d post Hs.
    + destruct pre; discriminate.
    + cbn [extractYear] in H.
      destruct pre as [|p pre].
      * change (String x r = String a (String b (String c (String d post)))) in Hs.
        injection Hs as -> ->.
        destruct (is_digit a && is_digit b && is_digit c && is_digit d);
          [discriminate|reflexivity].
      * change (String x r
                = String p (pre ++ String a (String b (String c (String d post))))) in Hs.
        injection Hs as -> Hr.
        apply (IH ltac:(destruct r as [|b' [|c' [|d' post']]]; try exact H;
                         destruct (is_digit p && is_digit b' && is_digit c' && is_digit d');
                         [discriminate|exact H]) pre a b c d post Hr).
Qed.

Lemma extractYear_reads_four_digits_witness :
  0 <= 1999 <= 9999
  /\ exists pre a b c d post,
      "1999-2024" = pre ++ String a (String b (String c (String d post)))
      /\ is_digit a && is_digit b && is_digit c && is_digit d = true
      /\ 1999 = 1000 * digit_value a + 100 * digit_value b
                + 10 * digit_value c + digit_value d
      /\ (forall pre' a' b' c' d' post',
            "1999-2024" = pre' ++ String a' (String b' (String c' (String d' post'))) ->
            is_digit a' && is_digit b' && is_digit c' && is_digit d' = true ->
            (String.length pre <= String.length pre')%nat).
Proof.
  apply (proj1 (extractYear_reads_four_digits "1999-2024") 1999).
  vm_compute. reflexivity.
Defined.

(** ** The login verdict and the cache frame *)

(** X22. The verdict of the auth check in closed form: [isLoggedIn] is
    [true] exactly when the cookie carries the token, or a logged-in
    marker is in the DOM, or, the page being neither the login nor the
    signup screen, the profile endpoint answers 2xx with a JSON body
    other than [null]. In every other case, including a profile endpoint
    that fails or answers 5xx, the verdict is [false]. *)
Theorem login_verdict (page : Page) :
  Js.prop (Agent.checkAuth page) "isLoggedIn"
  = Some (JBool (cookie_found page
                 || indicator_found page
                 || negb (on_login_page page) && profile_answered page)).
Proof.
  unfold Agent.checkAuth, Agent.checkAuthFromCookie, cookie_found.
  destruct (existsb Agent.cookie_is_auth (JsString.split ";" (cookie page)));
    [reflexivity|].
  cbn [orb].
  unfold Agent.checkAuthFromDOM, indicator_found, Agent.authSelectors.
  cbn [Agent.first_indicator existsb].
  destruct (querySelector page "userAvatar"); [reflexivity|].
  destruct (querySelector page "userMenu"); [reflexivity|].
  destruct (querySelector page "logoutButton"); [reflexivity|].
  destruct (querySelector page "profileLink"); [reflexivity|].
  cbn [orb]. unfold on_login_page.
  destruct (String.eqb (pathname page) "/login" || String.eqb (pathname page) "/signup");
    [reflexivity|].
  cbn [negb andb].
  unfold Agent.checkAuthFromAPI, profile_answered.
  destruct (fetch page "/api/me") as [m|status json]; [reflexivity|].
  destruct (Agent.ok status).
  - destruct json as [data|m]; [|reflexivity].
    destruct (nullish data) eqn:N.
    + rewrite !(prop_nullish _ _ N). reflexivity.
    + rewrite !(prop_not_nullish _ _ N). reflexivity.
  - destruct ((status =? 401) || (status =? 403)); destruct json; reflexivity.
Qed.

Lemma pipeline_frame env type args annotate message w result w' k :
  pipeline env type args annotate message w = (result, w') ->
  k <> CacheManager.generateKey type args ->
  cache w' !! k = cache w !! k.
Proof.
  intros Hop Hk.
  assert (Hget : exists v c1 pe,
             cacheManager_get type args w
             = (Normal v, mkWorld (now w) c1 (pendingSearch w) (trace w ++ pe))
             /\ c1 !! k = cache w !! k).
  { unfold cacheManager_get, CacheManager.get.
    destruct (cache w !! CacheManager.generateKey type args) as [e|].
    - destruct (CacheManager.expired (now w) e).
      + eexists _, _, _. split; [reflexivity|]. apply lookup_delete_ne. congruence.
      + eexists _, _, _. split; reflexivity.
    - eexists _, _, _. split; reflexivity. }
  destruct Hget as (v & c1 & pe & Hget & Hc1).
  destruct (sendToContentScript_frame env message
              (mkWorld (now w) c1 (pendingSearch w) (trace w ++ pe)))
    as (r & dt & evs & Hsend & _).
  rewrite (pipeline_run _ _ _ _ _ _ _ _ _ _ Hget Hsend) in Hop.
  cbn [now cache pendingSearch trace] in Hop.
  destruct (negb (is_null v)); [injection Hop as <- <-; exact Hc1|].
  destruct (Js.prop r "success") as [s|]; [|injection Hop as <- <-; exact Hc1].
  destruct (Js.truthy s); injection Hop as <- <-; [|exact Hc1].
  cbn [cache]. unfold CacheManager.set. rewrite lookup_insert_ne by congruence.
  exact Hc1.
Qed.

(** X23. Each agent-bound handler confines itself to its own cache key.
    On every path (hit, miss answered with success or with failure,
    exception, rejected input) the entry under any other key is after
    the call exactly what it was before. *)
Theorem handlers_touch_only_their_key (env : Env) (w w' : World)
    (result : Completion JsVal) (k : string) :
  (handleCheckSession env w = (result, w') ->
   k <> CacheManager.generateKey "sessionState" [JStr "status"] ->
   cache w' !! k = cache w !! k)
  /\ (forall q,
        handleSearchMovies env (JStr q) w = (result, w') ->
        k <> CacheManager.generateKey "searchResults" [JStr (normalizedQuery q)] ->
        cache w' !! k = cache w !! k)
  /\ (forall movieId,
        handleGetMovieDetails env movieId w = (result, w') ->
        k <> CacheManager.generateKey "movieDetails" [movieId] ->
        cache w' !! k = cache w !! k).
Proof.
  split; [|split].
  - rewrite handleCheckSession_pipeline. apply pipeline_frame.
  - intros q H Hk. destruct (JsString.trim q) as [|c t] eqn:Hq.
    + unfold handleSearchMovies in H. destruct q as [|c q].
      * injection H as _ <-. reflexivity.
      * cbn [Js.truthy negb] in H. rewrite Hq in H. injection H as _ <-. reflexivity.
    + rewrite (handleSearchMovies_pipeline env q) in H by (rewrite Hq; discriminate).
      exact (pipeline_frame _ _ _ _ _ _ _ _ _ H Hk).
  - intros movieId H Hk. destruct (Js.truthy movieId) eqn:Hid.
    + rewrite (handleGetMovieDetails_pipeline env movieId Hid) in H.
      exact (pipeline_frame _ _ _ _ _ _ _ _ _ H Hk).
    + unfold handleGetMovieDetails in H. rewrite Hid in H.
      injection H as _ <-. reflexivity.
Qed.

Lemma handlers_touch_only_their_key_witness :
  cache (snd (handleCheckSession no_tab_env (later 100000 dune_cached_world)))
    !! "searchResults:dune"
  = cache (later 100000 dune_cached_world) !! "searchResults:dune".
Proof.
  apply (proj1 (handlers_touch_only_their_key no_tab_env (later 100000 dune_cached_world)
                  (snd (handleCheckSession no_tab_env (later 100000 dune_cached_world)))
                  (fst (handleCheckSession no_tab_env (later 100000 dune_cached_world)))
                  "searchResults:dune")).
  - destruct (handleCheckSession no_tab_env (later 100000 dune_cached_world)). reflexivity.
  - vm_compute. discriminate.
Defined.
